(** * folder_watcher_dv7_encoder: a shallow embedding and its properties

    The program watches a folder for [DolbyMaster.mov] and
    [DolbyMetadata.xml], builds an encoder command line from a JSON
    configuration, runs it while colouring its output, and archives the
    inputs after a successful run.

    Conventions of the embedding:
    - a Python [str] is a [string] of 8-bit characters, the code points
      below 256; [lower] acts on the ASCII letters and [rstrip] strips
      the white space of [str.isspace];
    - [bytes] are [list byte];
    - paths follow pathlib's POSIX flavour;
    - the filesystem is the set of names that exist, spelled the way
      pathlib prints them;
    - exceptions, [sys.exit] included, are results of a computation;
    - the functions of the program come first as they run where
      [Path.exists()] and [print] raise nothing; the module [OnHost]
      has the same functions for a host on which they can raise;
    - what the environment decides (the child process, failing moves,
      Ctrl+C, the clock) is an explicit argument. *)

From Stdlib Require Import ZArith String Ascii List Bool Lia DecimalString.
From Stdlib Require Import Strings.Byte.
From stdpp Require Import base gmap sets list strings.
Import ListNotations.

Local Open Scope string_scope.
Local Open Scope list_scope.

(* stdpp stops [simpl] at string concatenation; the proofs below compute
   with it. *)
#[local] Arguments String.append !s1 s2 : simpl nomatch.

(** ** Python strings *)

Module PyStr.

(** [needle in hay] *)
Fixpoint contains (needle hay : string) : bool :=
  match hay with
  | EmptyString => String.prefix needle EmptyString
  | String _ hay' => String.prefix needle hay || contains needle hay'
  end.

Definition is_upper (c : ascii) : bool :=
  (65 <=? nat_of_ascii c)%nat && (nat_of_ascii c <=? 90)%nat.

Definition lower_char (c : ascii) : ascii :=
  if is_upper c then ascii_of_nat (nat_of_ascii c + 32) else c.

(** [s.lower()] *)
Fixpoint lower (s : string) : string :=
  match s with
  | EmptyString => EmptyString
  | String c s' => String (lower_char c) (lower s')
  end.

(** White space of [str.rstrip()], the characters for which
    [str.isspace()] holds: tab, line feed, vertical tab, form feed,
    carriage return, the four separators 28..31, the space, the next
    line control 133 and the no-break space 160. *)
Definition is_space (c : ascii) : bool :=
  let n := nat_of_ascii c in
  ((9 <=? n)%nat && (n <=? 13)%nat) || ((28 <=? n)%nat && (n <=? 32)%nat)
  || (n =? 133)%nat || (n =? 160)%nat.

(** [s.rstrip()] *)
Fixpoint rstrip (s : string) : string :=
  match s with
  | EmptyString => EmptyString
  | String c s' =>
      match rstrip s' with
      | EmptyString => if is_space c then EmptyString else String c EmptyString
      | r => String c r
      end
  end.

(** [s.lstrip(c)] for a single character [c] *)
Fixpoint lstrip_char (c : ascii) (s : string) : string :=
  match s with
  | EmptyString => EmptyString
  | String a s' => if Ascii.eqb a c then lstrip_char c s' else s
  end.

(** [s.split(sep)] for a single character [sep] *)
Fixpoint split (sep : ascii) (s : string) : list string :=
  match s with
  | EmptyString => [EmptyString]
  | String c s' =>
      if Ascii.eqb c sep then EmptyString :: split sep s'
      else match split sep s' with
           | [] => [String c EmptyString]
           | x :: xs => String c x :: xs
           end
  end.

(** [sep.join(l)] *)
Definition join (sep : string) (l : list string) : string := String.concat sep l.

(** [str(n)] for an [int] *)
Definition of_Z (z : Z) : string := NilZero.string_of_int (Z.to_int z).

(** [f'"{s}"'] *)
Definition dquote : string := String (ascii_of_nat 34) EmptyString.
Definition quoted (s : string) : string := dquote +:+ s +:+ dquote.

End PyStr.

(** ** pathlib, POSIX flavour *)

Module PosixPath.
Import PyStr.

Definition sep : ascii := "/"%char.

(** A parsed path: the root ([/], [//] or none) and the components
    after it. *)
Record PurePath := { root : string; segs : list string }.

Definition keep_part (x : string) : bool :=
  negb (String.eqb x EmptyString) && negb (String.eqb x ".").

Definition components (rel : string) : list string :=
  List.filter keep_part (split sep rel).

(** [_PosixFlavour.splitroot]: exactly two leading slashes are kept,
    any other number collapses to one. *)
Definition splitroot (part : string) : string * string :=
  match part with
  | String c _ =>
      if Ascii.eqb c sep then
        let stripped_part := lstrip_char sep part in
        if Nat.eqb (String.length part - String.length stripped_part) 2
        then ("//", stripped_part)
        else ("/", stripped_part)
      else (EmptyString, part)
  | EmptyString => (EmptyString, part)
  end.

(** [Path(s)] *)
Definition Path (s : string) : PurePath :=
  let '(r, rel) := splitroot s in {| root := r; segs := components rel |}.

(** [str(p)] *)
Definition str (p : PurePath) : string :=
  match root p, segs p with
  | EmptyString, [] => "."
  | r, l => r +:+ join "/" l
  end.

(** [p.name] *)
Definition name (p : PurePath) : string := List.last (segs p) EmptyString.

(** [p / s] *)
Definition div (p : PurePath) (s : string) : PurePath :=
  let q := Path s in
  match root q with
  | EmptyString => {| root := root p; segs := segs p ++ segs q |}
  | _ => q
  end.

End PosixPath.

(** ** Configuration values and the configuration mapping *)

(** The scalars [json.load] produces.  A [float] carries the text
    [str] prints for it. *)
Inductive value : Type :=
| VNone
| VBool (b : bool)
| VInt (z : Z)
| VFloat (repr : string)
| VStr (s : string).

Definition is_None (v : value) : bool :=
  match v with VNone => true | _ => false end.

(** [str(value)] *)
Definition py_str (v : value) : string :=
  match v with
  | VNone => "None"
  | VBool true => "True"
  | VBool false => "False"
  | VInt z => PyStr.of_Z z
  | VFloat repr => repr
  | VStr s => s
  end.

(** A [dict] with [str] keys: its items in insertion order.  The keys of
    a dict are pairwise distinct ([dict_wf]). *)
Definition dict : Type := list (string * value).

Definition dict_wf (d : dict) : Prop := NoDup (map fst d).

(** [k in d] *)
Definition dict_contains (k : string) (d : dict) : bool :=
  existsb (fun kv => String.eqb (fst kv) k) d.

(** [d[k]] as an option *)
Fixpoint dict_get (k : string) (d : dict) : option value :=
  match d with
  | [] => None
  | (k', v) :: d' => if String.eqb k' k then Some v else dict_get k d'
  end.

(** The items left by [d.pop(k)]: the entry of [k] is removed, the others
    keep their order. *)
Fixpoint dict_remove (k : string) (d : dict) : dict :=
  match d with
  | [] => []
  | (k', v) :: d' => if String.eqb k' k then d' else (k', v) :: dict_remove k d'
  end.

(** ** The world, exceptions and the computation monad *)

Inductive exn : Type :=
| FileNotFoundError (msg : string)
| JSONDecodeError (msg : string)
| OtherException (msg : string)   (* any other subclass of Exception *)
| KeyboardInterrupt
| SystemExit (code : Z).

(** [isinstance(e, Exception)]: [KeyboardInterrupt] and [SystemExit]
    derive from [BaseException] only. *)
Definition is_Exception (e : exn) : bool :=
  match e with
  | KeyboardInterrupt | SystemExit _ => false
  | _ => true
  end.

(** [str(e)] *)
Definition exn_str (e : exn) : string :=
  match e with
  | FileNotFoundError msg | JSONDecodeError msg | OtherException msg => msg
  | KeyboardInterrupt => EmptyString
  | SystemExit code => PyStr.of_Z code
  end.

Record World := {
  files : gset string;      (* names that exist and are not directories *)
  dirs : gset string;       (* names that are directories *)
  console : list string     (* the lines printed so far, oldest first *)
}.

Inductive result (A : Type) : Type :=
| Ret (a : A)
| Raise (e : exn).
Arguments Ret {A} a.
Arguments Raise {A} e.

Definition M (A : Type) : Type := World -> World * result A.

Definition ret {A} (a : A) : M A := fun w => (w, Ret a).

Definition raise {A} (e : exn) : M A := fun w => (w, Raise e).

Definition bind {A B} (m : M A) (k : A -> M B) : M B :=
  fun w => match m w with
           | (w', Ret a) => k a w'
           | (w', Raise e) => (w', Raise e)
           end.

(** [try: m except C1: k1 except C2: k2]: the first clause whose class
    matches handles the exception; what a handler raises is not handled
    by its siblings. *)
Fixpoint dispatch {A} (clauses : list ((exn -> bool) * (exn -> M A))) (e : exn) : M A :=
  match clauses with
  | [] => raise e
  | (handles, handler) :: clauses' => if handles e then handler e else dispatch clauses' e
  end.

Definition try_ {A} (m : M A) (clauses : list ((exn -> bool) * (exn -> M A))) : M A :=
  fun w => match m w with
           | (w', Raise e) => dispatch clauses e w'
           | r => r
           end.

#[global] Instance M_ret : MRet M := @ret.
#[global] Instance M_bind : MBind M := fun A B k m => bind m k.

(** [print(line)] *)
Definition print (line : string) : M unit :=
  fun w => ({| files := files w; dirs := dirs w; console := console w ++ [line] |}, Ret tt).

(** [p.exists()], [p.is_dir()] *)
Definition path_exists (w : World) (p : PosixPath.PurePath) : bool :=
  bool_decide (PosixPath.str p ∈ files w ∪ dirs w).

Definition path_is_dir (w : World) (p : PosixPath.PurePath) : bool :=
  bool_decide (PosixPath.str p ∈ dirs w).

Definition exists_ (p : PosixPath.PurePath) : M bool := fun w => (w, Ret (path_exists w p)).

Definition is_dir (p : PosixPath.PurePath) : M bool := fun w => (w, Ret (path_is_dir w p)).

(** ** The program *)

Module Colors.
Definition esc : string := String (ascii_of_nat 27) EmptyString.
Definition RED : string := esc +:+ "[91m".
Definition GREEN : string := esc +:+ "[92m".
Definition YELLOW : string := esc +:+ "[93m".
Definition BLUE : string := esc +:+ "[94m".
Definition RESET : string := esc +:+ "[0m".
End Colors.

(** [error]: print and [sys.exit(1)].  It never returns, so it has every
    result type. *)
Definition error {A} (msg : string) : M A :=
  print (Colors.RED +:+ "ERROR: " +:+ msg +:+ Colors.RESET) ;;
  raise (SystemExit 1).

Definition log_info (msg : string) : M unit :=
  print (Colors.BLUE +:+ "INFO: " +:+ msg +:+ Colors.RESET).

Definition log_warning (msg : string) : M unit :=
  print (Colors.YELLOW +:+ "WARNING: " +:+ msg +:+ Colors.RESET).

Definition is_FileNotFoundError (e : exn) : bool :=
  match e with FileNotFoundError _ => true | _ => false end.

Definition is_JSONDecodeError (e : exn) : bool :=
  match e with JSONDecodeError _ => true | _ => false end.

Definition is_KeyboardInterrupt (e : exn) : bool :=
  match e with KeyboardInterrupt => true | _ => false end.

(** What opening and parsing the configuration file gives. *)
Inductive config_file : Type :=
| Parsed (d : dict)
| Missing                       (* open raises FileNotFoundError *)
| Malformed                     (* json.load raises JSONDecodeError *)
| Unreadable (msg : string).    (* open raises another OSError *)

(** [with open(config_path, 'r') as f: json.load(f)] *)
Definition json_load (config_path : string) (f : config_file) : M dict :=
  match f with
  | Parsed d => mret d
  | Missing => raise (FileNotFoundError ("No such file or directory: '" +:+ config_path +:+ "'"))
  | Malformed => raise (JSONDecodeError "Expecting value")
  | Unreadable msg => raise (OtherException msg)
  end.

Definition load_config (config_path : string) (f : config_file) : M dict :=
  try_ (json_load config_path f)
    [ (is_FileNotFoundError,
        fun _ => error ("Configuration file not found at '" +:+ config_path +:+ "'"));
      (is_JSONDecodeError,
        fun _ => error ("Invalid JSON in configuration file '" +:+ config_path +:+ "'")) ].

Definition encoder_script_path : string := "encoder_script_path".

(** The quoting test of the loop over the items: a [str] with a
    backslash or a slash is wrapped when it exists as a path or contains
    [temp]. *)
Definition quote_value (v : value) : M value :=
  match v with
  | VStr s =>
      if PyStr.contains "\" s || PyStr.contains "/" s then
        e ← exists_ (PosixPath.Path s);
        if e || PyStr.contains "temp" s
        then mret (VStr (PyStr.quoted s))
        else mret v
      else mret v
  | _ => mret v
  end.

(** [for key, value in config.items(): ...] *)
Fixpoint add_arguments (items : list (string * value)) (command : list string) : M (list string) :=
  match items with
  | [] => mret command
  | (key, value) :: items' =>
      value ← quote_value value;
      let command :=
        if is_None value then command
        else (command ++ ["--" +:+ key]) ++ [py_str value] in
      add_arguments items' command
  end.

Section Program.

(** [sys.executable] and [bytes.decode(sys.stdout.encoding or 'utf-8',
    errors='replace')] *)
Variable sys_executable : string.
Variable decode : list byte -> string.

(** [construct_command].  The mapping is an object shared with the
    caller: the result carries the mapping as the call leaves it. *)
Definition construct_command (config : dict) (watch_folder output_folder : string)
  : M (list string * dict) :=
  (if negb (dict_contains encoder_script_path config)
   then error "Config file must contain 'encoder_script_path' pointing to 'encode_dvmezz_to_dv7.py'"
   else mret tt) ;;
  popped ← match dict_get encoder_script_path config with
           | Some v => mret v
           | None => raise (OtherException "'encoder_script_path'")
           end;
  let config := dict_remove encoder_script_path config in
  script_path ← match popped with
                | VStr s => mret (PosixPath.Path s)
                | _ => raise (OtherException "expected str, bytes or os.PathLike object")
                end;
  let command := [PyStr.quoted (PosixPath.str (PosixPath.Path sys_executable)); "-u"] in
  let command := command ++ [PyStr.quoted (PosixPath.str script_path)] in
  let input_mov := PosixPath.div (PosixPath.Path watch_folder) "DolbyMaster.mov" in
  let input_xml := PosixPath.div (PosixPath.Path watch_folder) "DolbyMetadata.xml" in
  command ← add_arguments config command;
  let command := command ++ ["--input"; PyStr.quoted (PosixPath.str input_mov)] in
  let command := command ++ ["--input-metadata"; PyStr.quoted (PosixPath.str input_xml)] in
  let base_name := PosixPath.name (PosixPath.Path watch_folder) in
  let output_bl := PosixPath.div (PosixPath.Path output_folder) (base_name +:+ "_bl.h265") in
  let output_el := PosixPath.div (PosixPath.Path output_folder) (base_name +:+ "_el.h265") in
  let command := command ++ ["--output-bl"; PyStr.quoted (PosixPath.str output_bl)] in
  let command := command ++ ["--output-el"; PyStr.quoted (PosixPath.str output_el)] in
  mret (command, config).

(** *** run_encoding *)

Inductive line_class : Type := ErrorClass | WarningClass | Neutral.

(** The [if]/[elif]/[else] on [lower_line]. *)
Definition classify (line_str : string) : line_class :=
  let lower_line := PyStr.lower line_str in
  if PyStr.contains "error" lower_line then ErrorClass
  else if PyStr.contains "warning" lower_line then WarningClass
  else Neutral.

(** What each branch prints. *)
Definition colorize (line_str : string) : string :=
  match classify line_str with
  | ErrorClass => Colors.RED +:+ line_str +:+ Colors.RESET
  | WarningClass => Colors.YELLOW +:+ line_str +:+ Colors.RESET
  | Neutral => line_str
  end.

Definition newline : byte := x0a.

Definition bytes_contains (b : byte) (l : list byte) : bool :=
  existsb (Byte.eqb b) l.

(** [l.split(b)] on [bytes] *)
Fixpoint bytes_split (b : byte) (l : list byte) : list (list byte) :=
  match l with
  | [] => [[]]
  | c :: l' =>
      if Byte.eqb c b then [] :: bytes_split b l'
      else match bytes_split b l' with
           | [] => [[c]]
           | x :: xs => (c :: x) :: xs
           end
  end.

(** The body of the [for chunk in iter(...)] loop, for one byte read. *)
Definition stream_chunk (line_buffer : list byte) (chunk : byte) : M (list byte) :=
  let line_buffer := line_buffer ++ [chunk] in
  if bytes_contains newline line_buffer then
    let line := List.hd [] (bytes_split newline line_buffer) in
    let line_buffer := drop (length line + 1) line_buffer in
    let line_str := PyStr.rstrip (decode line) in
    print (colorize line_str) ;;
    mret line_buffer
  else mret line_buffer.

(** The loop: one iteration per byte until the stream closes; the
    buffer left at that point goes out of scope. *)
Fixpoint stream (stdout : list byte) (line_buffer : list byte) : M (list byte) :=
  match stdout with
  | [] => mret line_buffer
  | chunk :: stdout' =>
      line_buffer ← stream_chunk line_buffer chunk;
      stream stdout' line_buffer
  end.

(** A child process that ran to its end: what it wrote to the pipe,
    its exit code and the files it made. *)
Record process := {
  stdout : list byte;
  returncode : Z;
  creates : gset string
}.

(** What [subprocess.Popen] and the child do. *)
Inductive popen_behaviour : Type :=
| Runs (p : process)
| NotFound (msg : string)       (* Popen raises FileNotFoundError *)
| Fails (msg : string)          (* Popen raises another exception *)
| Interrupted.                  (* Ctrl+C while the encoder runs *)

(** [subprocess.Popen(...)] *)
Definition Popen (behaviour : popen_behaviour) : M process :=
  match behaviour with
  | Runs p => mret p
  | NotFound msg => raise (FileNotFoundError msg)
  | Fails msg => raise (OtherException msg)
  | Interrupted => raise KeyboardInterrupt
  end.

(** [process.wait()]: by now the child has made its files. *)
Definition wait (p : process) : M unit :=
  fun w => ({| files := files w ∪ creates p; dirs := dirs w; console := console w |}, Ret tt).

Definition run_encoding (command : list string) (behaviour : popen_behaviour) : M bool :=
  let command_str := PyStr.join " " command in
  log_info ("Running command: " +:+ command_str) ;;
  try_
    (p ← Popen behaviour;
     _ ← stream (stdout p) [];
     wait p ;;
     if negb (returncode p =? 0)%Z then
       log_warning ("Encoding process failed with return code "
                    +:+ PyStr.of_Z (returncode p) +:+ ".") ;;
       mret false
     else
       print (Colors.GREEN +:+ "INFO: Encoding process completed successfully."
              +:+ Colors.RESET) ;;
       mret true)
    [ (is_FileNotFoundError,
        fun _ => match command with
                 | c0 :: _ =>
                     error ("Could not execute command. Make sure '" +:+ c0 +:+ "' is correct.")
                 | [] => raise (OtherException "list index out of range")
                 end);
      (is_Exception,
        fun e => error ("An unexpected error occurred while running the encoder: "
                        +:+ exn_str e)) ].

(** *** main *)

Record Args := {
  watch_folder : string;
  output_folder : string;
  processed_folder : string;
  config_path : string;
  polling_interval : Z
}.

(** What the environment decides before the loop. *)
Record Startup := {
  mkdir_raises : string -> option string;
  config_read : config_file
}.

(** What the environment decides during one turn of the loop. *)
Record Cycle := {
  popen : popen_behaviour;
  strftime : string;
  move_raises : string -> string -> option string;
  sleep_interrupted : bool
}.

(** The path and its ancestors, as [mkdir(parents=True)] makes them. *)
Definition with_parents (p : PosixPath.PurePath) : list string :=
  map (fun n => PosixPath.str {| PosixPath.root := PosixPath.root p;
                                 PosixPath.segs := take n (PosixPath.segs p) |})
      (seq 1 (length (PosixPath.segs p))).

(** [p.mkdir(parents=True, exist_ok=True)] *)
Definition mkdir (raises : string -> option string) (p : PosixPath.PurePath) : M unit :=
  fun w => match raises (PosixPath.str p) with
           | Some msg => (w, Raise (OtherException msg))
           | None => ({| files := files w;
                         dirs := dirs w ∪ list_to_set (with_parents p);
                         console := console w |}, Ret tt)
           end.

(** [shutil.move(src, dst)] for a source that is a regular file and a
    destination that is a new name: a move that fails leaves the names
    as they were. *)
Definition shutil_move (raises : string -> string -> option string) (src dst : string) : M unit :=
  fun w => match raises src dst with
           | Some msg => (w, Raise (OtherException msg))
           | None =>
               if bool_decide (src ∈ files w) then
                 ({| files := {[dst]} ∪ (files w ∖ {[src]});
                     dirs := dirs w; console := console w |}, Ret tt)
               else (w, Raise (FileNotFoundError src))
           end.

(** [time.sleep(secs)] for an interval within the range of the clock *)
Definition sleep (interrupted : bool) (secs : Z) : M unit :=
  if (secs <? 0)%Z then raise (OtherException "sleep length must be non-negative")
  else if interrupted then raise KeyboardInterrupt
  else mret tt.

(** One turn of [while True].  [config] is the mapping object of
    [main]; the turn returns it as it is afterwards. *)
Definition iteration (args : Args) (watch_path output_path processed_path : PosixPath.PurePath)
    (c : Cycle) (config : dict) : M dict :=
  let input_mov := PosixPath.div watch_path "DolbyMaster.mov" in
  let input_xml := PosixPath.div watch_path "DolbyMetadata.xml" in
  mov_exists ← exists_ input_mov;
  xml_exists ← (if mov_exists then exists_ input_xml else mret false);
  config ← (if mov_exists && xml_exists then
              log_info "Found DolbyMaster.mov and DolbyMetadata.xml. Starting encoding process." ;;
              '(command, config) ← construct_command config (PosixPath.str watch_path)
                                      (PosixPath.str output_path);
              ok ← run_encoding command (popen c);
              (if ok : bool then
                 let timestamp := strftime c in
                 try_
                   (shutil_move (move_raises c) (PosixPath.str input_mov)
                      (PosixPath.str (PosixPath.div processed_path
                                        ("DolbyMaster_" +:+ timestamp +:+ ".mov"))) ;;
                    shutil_move (move_raises c) (PosixPath.str input_xml)
                      (PosixPath.str (PosixPath.div processed_path
                                        ("DolbyMetadata_" +:+ timestamp +:+ ".xml"))) ;;
                    log_info "Moved source files to 'processed' directory.")
                   [ (is_Exception,
                       fun e => error ("Failed to move processed files: " +:+ exn_str e)) ]
               else mret tt) ;;
              log_info ("Waiting for new files. Checking again in "
                        +:+ PyStr.of_Z (polling_interval args) +:+ " seconds.") ;;
              mret config
            else mret config);
  sleep (sleep_interrupted c) (polling_interval args) ;;
  mret config.

(** [while True] over the turns the environment describes.  A result
    [Ret] means that the loop is still running after them. *)
Fixpoint loop (args : Args) (watch_path output_path processed_path : PosixPath.PurePath)
    (cycles : list Cycle) (config : dict) : M dict :=
  match cycles with
  | [] => mret config
  | c :: cycles' =>
      config ← iteration args watch_path output_path processed_path c config;
      loop args watch_path output_path processed_path cycles' config
  end.

Definition lf : string := String (ascii_of_nat 10) EmptyString.

(** [main] from line 131 on, for the arguments that [parse_args]
    returned. *)
Definition main (args : Args) (startup : Startup) (cycles : list Cycle) : M unit :=
  let watch_path := PosixPath.Path (watch_folder args) in
  let output_path := PosixPath.Path (output_folder args) in
  let processed_path := PosixPath.Path (processed_folder args) in
  d ← is_dir watch_path;
  (if negb d then
     error ("Watch folder '" +:+ PosixPath.str watch_path
            +:+ "' does not exist or is not a directory.")
   else mret tt) ;;
  d ← is_dir output_path;
  (if negb d then
     log_info ("Output folder '" +:+ PosixPath.str output_path
               +:+ "' does not exist. Creating it.") ;;
     mkdir (mkdir_raises startup) output_path
   else mret tt) ;;
  d ← is_dir processed_path;
  (if negb d then
     log_info ("Processed files folder '" +:+ PosixPath.str processed_path
               +:+ "' does not exist. Creating it.") ;;
     mkdir (mkdir_raises startup) processed_path
   else mret tt) ;;
  config ← load_config (config_path args) (config_read startup);
  log_info ("Watching folder: " +:+ PosixPath.str watch_path) ;;
  log_info ("Polling every " +:+ PyStr.of_Z (polling_interval args)
            +:+ " seconds. Press Ctrl+C to stop.") ;;
  try_
    (_ ← loop args watch_path output_path processed_path cycles config; mret tt)
    [ (is_KeyboardInterrupt,
        fun _ => log_info (lf +:+ "Watcher stopped by user.") ;;
                 raise (SystemExit 0)) ].

End Program.

(** The exit status of the process for the result of [main]: none while
    the loop runs, the code of [sys.exit], 1 for an exception nothing
    caught (the interpreter prints the traceback; for a stray
    [KeyboardInterrupt] the status is 130). *)
Definition exit_status (r : result unit) : option Z :=
  match r with
  | Ret _ => None
  | Raise (SystemExit code) => Some code
  | Raise KeyboardInterrupt => Some 130%Z
  | Raise _ => Some 1%Z
  end.

(** ** The library calls that can raise

    The functions above are the program on a host where [Path.exists()]
    always answers and [print] always prints.  On a real host
    [Path.exists()] lets through the [OSError] of [os.stat] unless it is
    one of ENOENT, ENOTDIR, EBADF and ELOOP (a name that is too long, a
    directory that may not be searched), and [print] raises
    [UnicodeEncodeError] for a text that [sys.stdout] cannot encode,
    such as the replacement character that
    [decode(..., errors='replace')] leaves for a byte it cannot decode.
    [OnHost] holds [construct_command] and [run_encoding] for a host
    that decides both. *)

Record Host := {
  stat_error : string -> option string;     (* the OSError of os.stat for a name *)
  encode_error : string -> option string    (* the UnicodeEncodeError for a text *)
}.

(** The host on which neither happens. *)
Definition calm : Host :=
  {| stat_error := fun _ => None; encode_error := fun _ => None |}.

Module OnHost.

Section Host.

Variable h : Host.

(** [print(line)]: a text that cannot be encoded is not written at
    all. *)
Definition print (line : string) : M unit :=
  fun w => match encode_error h line with
           | Some msg => (w, Raise (OtherException msg))
           | None => ({| files := files w; dirs := dirs w;
                         console := console w ++ [line] |}, Ret tt)
           end.

(** [p.exists()] *)
Definition exists_ (p : PosixPath.PurePath) : M bool :=
  fun w => match stat_error h (PosixPath.str p) with
           | Some msg => (w, Raise (OtherException msg))
           | None => (w, Ret (path_exists w p))
           end.

Definition error {A} (msg : string) : M A :=
  print (Colors.RED +:+ "ERROR: " +:+ msg +:+ Colors.RESET) ;;
  raise (SystemExit 1).

Definition log_info (msg : string) : M unit :=
  print (Colors.BLUE +:+ "INFO: " +:+ msg +:+ Colors.RESET).

Definition log_warning (msg : string) : M unit :=
  print (Colors.YELLOW +:+ "WARNING: " +:+ msg +:+ Colors.RESET).

Definition quote_value (v : value) : M value :=
  match v with
  | VStr s =>
      if PyStr.contains "\" s || PyStr.contains "/" s then
        e ← exists_ (PosixPath.Path s);
        if e || PyStr.contains "temp" s
        then mret (VStr (PyStr.quoted s))
        else mret v
      else mret v
  | _ => mret v
  end.

Fixpoint add_arguments (items : list (string * value)) (command : list string) : M (list string) :=
  match items with
  | [] => mret command
  | (key, value) :: items' =>
      value ← quote_value value;
      let command :=
        if is_None value then command
        else (command ++ ["--" +:+ key]) ++ [py_str value] in
      add_arguments items' command
  end.

Variable sys_executable : string.
Variable decode : list byte -> string.

Definition construct_command (config : dict) (watch_folder output_folder : string)
  : M (list string * dict) :=
  (if negb (dict_contains encoder_script_path config)
   then error "Config file must contain 'encoder_script_path' pointing to 'encode_dvmezz_to_dv7.py'"
   else mret tt) ;;
  popped ← match dict_get encoder_script_path config with
           | Some v => mret v
           | None => raise (OtherException "'encoder_script_path'")
           end;
  let config := dict_remove encoder_script_path config in
  script_path ← match popped with
                | VStr s => mret (PosixPath.Path s)
                | _ => raise (OtherException "expected str, bytes or os.PathLike object")
                end;
  let command := [PyStr.quoted (PosixPath.str (PosixPath.Path sys_executable)); "-u"] in
  let command := command ++ [PyStr.quoted (PosixPath.str script_path)] in
  let input_mov := PosixPath.div (PosixPath.Path watch_folder) "DolbyMaster.mov" in
  let input_xml := PosixPath.div (PosixPath.Path watch_folder) "DolbyMetadata.xml" in
  command ← add_arguments config command;
  let command := command ++ ["--input"; PyStr.quoted (PosixPath.str input_mov)] in
  let command := command ++ ["--input-metadata"; PyStr.quoted (PosixPath.str input_xml)] in
  let base_name := PosixPath.name (PosixPath.Path watch_folder) in
  let output_bl := PosixPath.div (PosixPath.Path output_folder) (base_name +:+ "_bl.h265") in
  let output_el := PosixPath.div (PosixPath.Path output_folder) (base_name +:+ "_el.h265") in
  let command := command ++ ["--output-bl"; PyStr.quoted (PosixPath.str output_bl)] in
  let command := command ++ ["--output-el"; PyStr.quoted (PosixPath.str output_el)] in
  mret (command, config).

Definition stream_chunk (line_buffer : list byte) (chunk : byte) : M (list byte) :=
  let line_buffer := line_buffer ++ [chunk] in
  if bytes_contains newline line_buffer then
    let line := List.hd [] (bytes_split newline line_buffer) in
    let line_buffer := drop (length line + 1) line_buffer in
    let line_str := PyStr.rstrip (decode line) in
    print (colorize line_str) ;;
    mret line_buffer
  else mret line_buffer.

Fixpoint stream (stdout : list byte) (line_buffer : list byte) : M (list byte) :=
  match stdout with
  | [] => mret line_buffer
  | chunk :: stdout' =>
      line_buffer ← stream_chunk line_buffer chunk;
      stream stdout' line_buffer
  end.

Definition run_encoding (command : list string) (behaviour : popen_behaviour) : M bool :=
  let command_str := PyStr.join " " command in
  log_info ("Running command: " +:+ command_str) ;;
  try_
    (p ← Popen behaviour;
     _ ← stream (stdout p) [];
     wait p ;;
     if negb (returncode p =? 0)%Z then
       log_warning ("Encoding process failed with return code "
                    +:+ PyStr.of_Z (returncode p) +:+ ".") ;;
       mret false
     else
       print (Colors.GREEN +:+ "INFO: Encoding process completed successfully."
              +:+ Colors.RESET) ;;
       mret true)
    [ (is_FileNotFoundError,
        fun _ => match command with
                 | c0 :: _ =>
                     error ("Could not execute command. Make sure '" +:+ c0 +:+ "' is correct.")
                 | [] => raise (OtherException "list index out of range")
                 end);
      (is_Exception,
        fun e => error ("An unexpected error occurred while running the encoder: "
                        +:+ exn_str e)) ].

End Host.

End OnHost.

(** ** The command line

    Lines 123 to 129 of [main]: [parse_args] returns the arguments,
    or prints the help and exits with 0 for [--help], or prints the
    usage on the error stream and exits with 2.  Ctrl+C before the [try]
    around the loop is caught by nothing; the model has it arrive while
    the command line is parsed. *)




(** ** Vocabulary of the statements *)

(** [needle] occurs in [hay]. *)
Definition substring_of (needle hay : string) : Prop :=
  exists pre post, hay = pre +:+ needle +:+ post.

(** [word] occurs in [line] in some mix of upper and lower case. *)
Definition mentions (word line : string) : Prop :=
  exists pre mid post, line = pre +:+ mid +:+ post /\ PyStr.lower mid = word.

(** A backslash or a slash occurs in [s]. *)
Definition has_separator (s : string) : bool :=
  PyStr.contains "\" s || PyStr.contains "/" s.

(** The token that follows [--key] for a value that is not [None]. *)
Definition flag_token (w : World) (v : value) : string :=
  match v with
  | VStr s =>
      if has_separator s && (path_exists w (PosixPath.Path s) || PyStr.contains "temp" s)
      then PyStr.quoted s else s
  | _ => py_str v
  end.

Definition flag_pair (w : World) (kv : string * value) : list string :=
  ["--" +:+ kv.1; flag_token w kv.2].

Definition not_None (kv : string * value) : bool := negb (is_None kv.2).

(** One pair per item whose value is not [None], in the order of the
    items. *)
Definition flag_pairs (w : World) (items : dict) : list string :=
  flat_map (flag_pair w) (List.filter not_None items).

(** A name that can be one component of a path. *)
Definition is_component (leaf : string) : bool :=
  negb (String.eqb leaf EmptyString) && negb (String.eqb leaf ".")
  && negb (PyStr.contains "/" leaf).

(** The lines of an output that a line feed completes, and what follows
    the last line feed. *)
Definition complete_lines (out : list byte) : list (list byte) :=
  removelast (bytes_split newline out).

Definition partial_line (out : list byte) : list byte :=
  List.last (bytes_split newline out) [].

(** What the loop prints for a complete line. *)
Definition shown (decode : list byte -> string) (line : list byte) : string :=
  colorize (PyStr.rstrip (decode line)).

Definition with_console (w : World) (lines : list string) : World :=
  {| files := files w; dirs := dirs w; console := console w ++ lines |}.

(** The items whose key is not [k]. *)
Definition other_key (k : string) (kv : string * value) : bool :=
  negb (String.eqb kv.1 k).

(** The two inputs of a job and the names they are archived under. *)
Definition input_mov (args : Args) : string :=
  PosixPath.str (PosixPath.div (PosixPath.Path (watch_folder args)) "DolbyMaster.mov").

Definition input_xml (args : Args) : string :=
  PosixPath.str (PosixPath.div (PosixPath.Path (watch_folder args)) "DolbyMetadata.xml").

Definition archived_mov (args : Args) (timestamp : string) : string :=
  PosixPath.str (PosixPath.div (PosixPath.Path (processed_folder args))
                   ("DolbyMaster_" +:+ timestamp +:+ ".mov")).

Definition archived_xml (args : Args) (timestamp : string) : string :=
  PosixPath.str (PosixPath.div (PosixPath.Path (processed_folder args))
                   ("DolbyMetadata_" +:+ timestamp +:+ ".xml")).

(** One turn of the loop of [main] for the folders of [args]. *)
Definition turn (sys_executable : string) (decode : list byte -> string)
    (args : Args) (c : Cycle) (config : dict) : M dict :=
  iteration sys_executable decode args
    (PosixPath.Path (watch_folder args)) (PosixPath.Path (output_folder args))
    (PosixPath.Path (processed_folder args)) c config.

(** Both inputs are still in the watch folder. *)
Definition inputs_in_place (args : Args) (w : World) : Prop :=
  input_mov args ∈ files w /\ input_xml args ∈ files w.


(** Ctrl+C arrives during this turn of the loop. *)
Definition interrupted (c : Cycle) : Prop :=
  sleep_interrupted c = true \/ popen c = Interrupted.




(** What [Path] builds: a root that is empty, one slash or two, and
    components that are not empty, not a dot and hold no slash. *)
Definition path_wf (p : PosixPath.PurePath) : Prop :=
  (PosixPath.root p = EmptyString \/ PosixPath.root p = "/" \/ PosixPath.root p = "//")
  /\ List.Forall (fun x => PosixPath.keep_part x = true /\ PyStr.contains "/" x = false)
       (PosixPath.segs p).

(** The number of line feeds in an output. *)
Definition count_newlines (out : list byte) : nat :=
  length (List.filter (Byte.eqb newline) out).

(** The encoder is not run to a zero exit code in this turn. *)
Definition no_successful_encode (c : Cycle) : Prop :=
  forall p, popen c = Runs p -> returncode p <> 0%Z.

(** Both inputs are seen by the test at the head of the loop. *)
Definition pair_detected (args : Args) (w : World) : bool :=
  path_exists w (PosixPath.div (PosixPath.Path (watch_folder args)) "DolbyMaster.mov")
  && path_exists w (PosixPath.div (PosixPath.Path (watch_folder args)) "DolbyMetadata.xml").

(** The second world has every file of the first and the same
    directories. *)
Definition keeps_files (w w' : World) : Prop :=
  files w ⊆ files w' /\ dirs w' = dirs w.

(** Strings of white space only, and strings without white space. *)
Fixpoint all_space (s : string) : bool :=
  match s with
  | EmptyString => true
  | String c s' => PyStr.is_space c && all_space s'
  end.

Fixpoint no_space (s : string) : bool :=
  match s with
  | EmptyString => true
  | String c s' => negb (PyStr.is_space c) && no_space s'
  end.

(** The existence test of the quoting rule answers for the value of the
    item: [os.stat] raises nothing for a string with a backslash or a
    slash. *)
Definition test_returns (h : Host) (kv : string * value) : Prop :=
  match kv.2 with
  | VStr s => has_separator s = true -> stat_error h (PosixPath.str (PosixPath.Path s)) = None
  | _ => True
  end.

Definition existence_tests_return (h : Host) (items : dict) : Prop :=
  List.Forall (test_returns h) items.

(** The console can encode the line. *)
Definition console_accepts (h : Host) (line : string) : Prop :=
  encode_error h line = None.

(** The token that stands for a value that is not null: a string with a
    separator goes in double quotes when it names an existing path or
    contains "temp"; every other value goes as [str] prints it. *)
Inductive emitted (w : World) : value -> string -> Prop :=
| emitted_quoted (s : string) :
    has_separator s = true ->
    path_exists w (PosixPath.Path s) = true \/ substring_of "temp" s ->
    emitted w (VStr s) (PyStr.quoted s)
| emitted_bare (s : string) :
    ~ (has_separator s = true
       /\ (path_exists w (PosixPath.Path s) = true \/ substring_of "temp" s)) ->
    emitted w (VStr s) s
| emitted_True : emitted w (VBool true) "True"
| emitted_False : emitted w (VBool false) "False"
| emitted_int (z : Z) : emitted w (VInt z) (PyStr.of_Z z)
| emitted_float (repr : string) : emitted w (VFloat repr) repr.

(** The tokens for the items of a mapping: nothing for an item whose
    value is null, [--key] and the token of the value for any other, in
    the order of the items. *)
Inductive pairs_for (w : World) : dict -> list string -> Prop :=
| pairs_nil : pairs_for w [] []
| pairs_null (key : string) (items : dict) (tokens : list string) :
    pairs_for w items tokens ->
    pairs_for w ((key, VNone) :: items) tokens
| pairs_value (key : string) (v : value) (token : string)
    (items : dict) (tokens : list string) :
    v <> VNone ->
    emitted w v token ->
    pairs_for w items tokens ->
    pairs_for w ((key, v) :: items) (("--" +:+ key) :: token :: tokens).

(** The item has a value that is not null. *)
Definition has_value (kv : string * value) : bool :=
  match kv.2 with VNone => false | _ => true end.

(** The two lines of [run_encoding] itself. *)
Definition running_line (command : list string) : string :=
  Colors.BLUE +:+ "INFO: " +:+ ("Running command: " +:+ PyStr.join " " command)
  +:+ Colors.RESET.

Definition verdict_line (code : Z) : string :=
  if (code =? 0)%Z
  then Colors.GREEN +:+ "INFO: Encoding process completed successfully." +:+ Colors.RESET
  else Colors.YELLOW +:+ "WARNING: "
       +:+ ("Encoding process failed with return code " +:+ PyStr.of_Z code +:+ ".")
       +:+ Colors.RESET.

(** The lines that reach the console up to the first one it cannot
    encode, and the error for that one. *)
Fixpoint printed_until_refusal (h : Host) (lines : list string)
  : list string * option string :=
  match lines with
  | [] => ([], None)
  | line :: lines' =>
      match encode_error h line with
      | Some msg => ([], Some msg)
      | None => let '(shown_lines, refusal) := printed_until_refusal h lines' in
                (line :: shown_lines, refusal)
      end
  end.

(** The diagnostic of [construct_command]. *)
Definition missing_key_line : string :=
  Colors.RED +:+ "ERROR: "
  +:+ "Config file must contain 'encoder_script_path' pointing to 'encode_dvmezz_to_dv7.py'"
  +:+ Colors.RESET.

(** ** Sample inputs *)

Module Sample.

(** The console encoding is Latin-1 here: one character per byte. *)
Definition decode : list byte -> string := string_of_list_byte.

Definition python : string := "/usr/bin/python3".

Definition config : dict :=
  [ ("preset", VStr "slow");
    ("encoder_script_path", VStr "/opt/dv/encode_dvmezz_to_dv7.py");
    ("temp-dir", VStr "/scratch/temp/job");
    ("lut", VStr "/opt/dv/missing.cube");
    ("crf", VInt 18);
    ("note", VNone);
    ("fast", VBool true) ].


Definition args : Args :=
  {| watch_folder := "/mnt/in/reel1";
     output_folder := "/mnt/out";
     processed_folder := "/mnt/done";
     config_path := "config.json";
     polling_interval := 60 |}.

Definition world : World :=
  {| files := {[ "/mnt/in/reel1/DolbyMaster.mov"; "/mnt/in/reel1/DolbyMetadata.xml" ]};
     dirs := {[ "/mnt/in/reel1"; "/mnt/out"; "/mnt/done" ]};
     console := [] |}.

Definition startup (d : dict) : Startup :=
  {| mkdir_raises := fun _ => None; config_read := Parsed d |}.

Definition body : list byte :=
  list_byte_of_string ("frame 1" +:+ lf +:+ "Warning: slow" +:+ lf).

Definition tail : list byte := list_byte_of_string "frame 2 (unfinished".

(** An encoder run that writes both outputs and exits with 0. *)
Definition encoder_ok : process :=
  {| stdout := body ++ tail;
     returncode := 0;
     creates := {[ "/mnt/out/reel1_bl.h265"; "/mnt/out/reel1_el.h265" ]} |}.

(** An encoder run that writes nothing and exits with 2. *)
Definition encoder_failed : process :=
  {| stdout := body ++ tail; returncode := 2; creates := ∅ |}.

(** The encoder exits with 2. *)
Definition failing_cycle : Cycle :=
  {| popen := Runs encoder_failed;
     strftime := "20250101-120000";
     move_raises := fun _ _ => None;
     sleep_interrupted := false |}.

(** The encoder succeeds and the move of the metadata file fails. *)
Definition second_move_fails : Cycle :=
  {| popen := Runs encoder_ok;
     strftime := "20250101-120000";
     move_raises := fun src _ =>
       if String.eqb src "/mnt/in/reel1/DolbyMetadata.xml"
       then Some "[Errno 28] No space left on device" else None;
     sleep_interrupted := false |}.

(** The encoder succeeds and the move of the master fails. *)
Definition first_move_fails : Cycle :=
  {| popen := Runs encoder_ok;
     strftime := "20250101-120000";
     move_raises := fun src _ =>
       if String.eqb src "/mnt/in/reel1/DolbyMaster.mov"
       then Some "[Errno 13] Permission denied" else None;
     sleep_interrupted := false |}.

(** Nothing to encode, and Ctrl+C during the sleep. *)
Definition interrupted_cycle : Cycle :=
  {| popen := Interrupted;
     strftime := "20250101-120000";
     move_raises := fun _ _ => None;
     sleep_interrupted := true |}.

(** The encoder succeeds and both moves go through. *)
Definition ok_cycle : Cycle :=
  {| popen := Runs encoder_ok;
     strftime := "20250101-120000";
     move_raises := fun _ _ => None;
     sleep_interrupted := false |}.

(** The three folders, and nothing to encode. *)
Definition empty_watch : World :=
  {| files := ∅;
     dirs := {[ "/mnt/in/reel1"; "/mnt/out"; "/mnt/done" ]};
     console := [] |}.

(** Both inputs in the watch folder, and no other folder yet. *)
Definition watch_only : World :=
  {| files := {[ "/mnt/in/reel1/DolbyMaster.mov"; "/mnt/in/reel1/DolbyMetadata.xml" ]};
     dirs := {[ "/mnt/in/reel1" ]};
     console := [] |}.

(** No folder at all. *)
Definition no_folders : World := {| files := ∅; dirs := ∅; console := [] |}.

(** An ASCII console: a byte above 127 decodes to the replacement
    character, which stands here as character 255, and the console
    encodes no character above 127. *)
Definition replacement : ascii := ascii_of_nat 255.

Definition ascii_decode (l : list byte) : string :=
  string_of_list_ascii
    (map (fun b => if (Byte.to_nat b <? 128)%nat then ascii_of_byte b else replacement) l).

Fixpoint all_ascii (s : string) : bool :=
  match s with
  | EmptyString => true
  | String c s' => (nat_of_ascii c <? 128)%nat && all_ascii s'
  end.

(** On this host the folder [/vault] may not be searched. *)
Definition ascii_host : Host :=
  {| stat_error := fun name =>
       if String.prefix "/vault/" name
       then Some ("[Errno 13] Permission denied: '" +:+ name +:+ "'") else None;
     encode_error := fun line =>
       if all_ascii line then None
       else Some "'ascii' codec can't encode character '\ufffd'" |}.

(** A configuration with a path under [/vault]. *)
Definition vault_config : dict :=
  [ ("encoder_script_path", VStr "/opt/dv/encode_dvmezz_to_dv7.py");
    ("preset", VStr "slow");
    ("temp-dir", VStr "/vault/temp/job");
    ("crf", VInt 18) ].

(** An encoder that writes a byte outside ASCII in its first line and
    exits with 0. *)
Definition garbled : process :=
  {| stdout := list_byte_of_string "frame " ++ [xe9] ++ list_byte_of_string (lf +:+ "done" +:+ lf);
     returncode := 0;
     creates := {[ "/mnt/out/reel1_bl.h265"; "/mnt/out/reel1_el.h265" ]} |}.

End Sample.

(** * Properties *)

(** ** Strings *)

Lemma append_nil_r (s : string) : s +:+ EmptyString = s.
Proof. induction s as [|c s IH]; simpl; [reflexivity | now rewrite IH]. Qed.

Lemma append_assoc (a b c : string) : (a +:+ b) +:+ c = a +:+ b +:+ c.
Proof. induction a as [|x a IH]; simpl; [reflexivity | now rewrite IH]. Qed.

Lemma append_inj_l (a b c : string) : a +:+ b = a +:+ c -> b = c.
Proof. induction a as [|x a IH]; simpl; intros H; [assumption | injection H; auto]. Qed.

Lemma length_append (a b : string) :
  String.length (a +:+ b) = String.length a + String.length b.
Proof. induction a as [|x a IH]; simpl; [reflexivity | now rewrite IH]. Qed.

Lemma prefix_spec (p s : string) :
  String.prefix p s = true <-> exists post, s = p +:+ post.
Proof.
  revert s; induction p as [|c p IH]; intros s.
  - split; [intros _; now exists s | intros _; now destruct s].
  - destruct s as [|d s]; simpl; [split; [discriminate | intros [post H]; discriminate]|].
    destruct (Ascii.ascii_dec c d) as [->|Hcd].
    + rewrite IH. split; intros [post H]; exists post.
      * now rewrite H.
      * now injection H.
    + split; [discriminate | intros [post H]; injection H; congruence].
Qed.

Lemma contains_spec (needle hay : string) :
  PyStr.contains needle hay = true <-> substring_of needle hay.
Proof.
  unfold substring_of. induction hay as [|c hay IH].
  - cbn [PyStr.contains]. rewrite prefix_spec. split.
    + intros [post H]. exists EmptyString, post. exact H.
    + intros [[|x pre] [post H]]; [now exists post | discriminate].
  - cbn [PyStr.contains]. rewrite orb_true_iff, prefix_spec, IH. split.
    + intros [[post H] | [pre [post H]]].
      * exists EmptyString, post. exact H.
      * exists (String c pre), post. simpl. now rewrite H.
    + intros [[|x pre] [post H]].
      * left. now exists post.
      * right. exists pre, post. simpl in H. now injection H.
Qed.

Lemma contains_false_spec (needle hay : string) :
  PyStr.contains needle hay = false <-> ~ substring_of needle hay.
Proof.
  rewrite <- contains_spec. destruct (PyStr.contains needle hay); split; congruence.
Qed.

Lemma lower_append (a b : string) :
  PyStr.lower (a +:+ b) = PyStr.lower a +:+ PyStr.lower b.
Proof. induction a as [|x a IH]; simpl; [reflexivity | now rewrite IH]. Qed.

Lemma lower_split (s a b : string) :
  PyStr.lower s = a +:+ b ->
  exists a' b', s = a' +:+ b' /\ PyStr.lower a' = a /\ PyStr.lower b' = b.
Proof.
  revert s; induction a as [|x a IH]; intros s H.
  - exists EmptyString, s. auto.
  - destruct s as [|c s]; [discriminate|]. simpl in H. injection H as Hx Hs.
    destruct (IH _ Hs) as (a' & b' & -> & Ha & Hb).
    exists (String c a'), b'. simpl. rewrite Ha, Hx. auto.
Qed.

Lemma contains_lower_spec (word line : string) :
  PyStr.contains word (PyStr.lower line) = true <-> mentions word line.
Proof.
  rewrite contains_spec. unfold substring_of, mentions. split.
  - intros (pre & post & H).
    destruct (lower_split _ _ _ H) as (pre' & rest & -> & _ & Hrest).
    destruct (lower_split _ _ _ Hrest) as (mid & post' & -> & Hmid & _).
    now exists pre', mid, post'.
  - intros (pre & mid & post & -> & Hmid).
    exists (PyStr.lower pre), (PyStr.lower post).
    now rewrite !lower_append, Hmid.
Qed.

(** ** Line classification *)

(** C8: a line that mentions "error" in any case is error-class, also
    when it mentions "warning"; otherwise a line that mentions "warning"
    is warning-class; every other line is neutral. *)
Theorem classify_error_before_warning (line : string) :
  (classify line = ErrorClass <-> mentions "error" line) /\
  (classify line = WarningClass <-> ~ mentions "error" line /\ mentions "warning" line) /\
  (classify line = Neutral <-> ~ mentions "error" line /\ ~ mentions "warning" line) /\
  (mentions "error" line -> mentions "warning" line ->
   colorize line = Colors.RED +:+ line +:+ Colors.RESET).
Proof.
  pose proof (contains_lower_spec "error" line) as He.
  pose proof (contains_lower_spec "warning" line) as Hw.
  unfold colorize, classify.
  destruct (PyStr.contains "error" (PyStr.lower line));
    destruct (PyStr.contains "warning" (PyStr.lower line));
    intuition (discriminate || congruence || auto).
Qed.

(** ** The streaming loop *)

Section Streaming.

Variable decode : list byte -> string.

Lemma byte_eqb_refl (b : byte) : Byte.eqb b b = true.
Proof. now apply Byte.byte_dec_lb. Qed.

Lemma bytes_split_nonempty (b : byte) (l : list byte) : bytes_split b l <> [].
Proof.
  destruct l as [|c l]; simpl; [discriminate|].
  destruct (Byte.eqb c b); [discriminate|].
  destruct (bytes_split b l); discriminate.
Qed.

Lemma bytes_contains_app (b : byte) (l1 l2 : list byte) :
  bytes_contains b (l1 ++ l2) = bytes_contains b l1 || bytes_contains b l2.
Proof. unfold bytes_contains. apply existsb_app. Qed.

Lemma bytes_split_free (b : byte) (l : list byte) :
  bytes_contains b l = false -> bytes_split b l = [l].
Proof.
  induction l as [|c l IH]; simpl; [reflexivity|].
  intros H. apply orb_false_iff in H as [Hc Hl].
  destruct (Byte.eqb c b) eqn:E.
  - apply Byte.byte_dec_bl in E. subst c.
    rewrite (byte_eqb_refl b) in Hc. discriminate.
  - now rewrite (IH Hl).
Qed.

Lemma bytes_split_at_sep (b : byte) (pre rest : list byte) :
  bytes_contains b pre = false ->
  bytes_split b (pre ++ b :: rest) = pre :: bytes_split b rest.
Proof.
  induction pre as [|c pre IH]; simpl; intros H.
  - now rewrite (byte_eqb_refl b).
  - apply orb_false_iff in H as [Hc Hl].
    destruct (Byte.eqb c b) eqn:E.
    + apply Byte.byte_dec_bl in E. subst c.
      rewrite (byte_eqb_refl b) in Hc. discriminate.
    + now rewrite (IH Hl).
Qed.

Lemma removelast_cons_split (b : byte) (x : list byte) (l : list byte) :
  removelast (x :: bytes_split b l) = x :: removelast (bytes_split b l).
Proof.
  simpl. destruct (bytes_split b l) eqn:E; [|reflexivity].
  now apply bytes_split_nonempty in E.
Qed.

Lemma last_cons_split (b : byte) (x : list byte) (l : list byte) :
  List.last (x :: bytes_split b l) [] = List.last (bytes_split b l) [].
Proof.
  simpl. destruct (bytes_split b l) eqn:E; [|reflexivity].
  now apply bytes_split_nonempty in E.
Qed.

(** A line feed completes the line in the buffer: it is printed and
    the buffer is empty again. *)
Lemma stream_chunk_newline (buf : list byte) (w : World) :
  bytes_contains newline buf = false ->
  stream_chunk decode buf newline w = (with_console w [shown decode buf], Ret []).
Proof.
  intros H. unfold stream_chunk.
  rewrite bytes_contains_app, H.
  change (bytes_contains newline [newline]) with true. cbn [orb].
  rewrite (bytes_split_at_sep newline buf [] H). cbn [List.hd].
  rewrite drop_ge by (rewrite length_app; simpl; lia).
  reflexivity.
Qed.

(** Any other byte only grows the buffer. *)
Lemma stream_chunk_other (buf : list byte) (c : byte) (w : World) :
  bytes_contains newline buf = false -> Byte.eqb newline c = false ->
  stream_chunk decode buf c w = (w, Ret (buf ++ [c])).
Proof.
  intros H Hc. unfold stream_chunk.
  rewrite bytes_contains_app, H. simpl. now rewrite Hc.
Qed.

Lemma with_console_nil (w : World) : with_console w [] = w.
Proof. destruct w. unfold with_console. simpl. now rewrite app_nil_r. Qed.

Lemma with_console_app (w : World) (l1 l2 : list string) :
  with_console (with_console w l1) l2 = with_console w (l1 ++ l2).
Proof. unfold with_console. simpl. now rewrite app_assoc. Qed.

(** The loop prints the complete lines of what it reads, in order, and
    ends with the partial line in its buffer. *)
Lemma stream_spec (out buf : list byte) (w : World) :
  bytes_contains newline buf = false ->
  stream decode out buf w =
    (with_console w (map (shown decode) (complete_lines (buf ++ out))),
     Ret (partial_line (buf ++ out))).
Proof.
  revert buf w. induction out as [|c out IH]; intros buf w Hbuf.
  - rewrite app_nil_r. unfold complete_lines, partial_line.
    rewrite (bytes_split_free _ _ Hbuf). simpl. now rewrite with_console_nil.
  - cbn [stream]. unfold mbind, M_bind, bind.
    destruct (Byte.eqb newline c) eqn:E.
    + apply Byte.byte_dec_bl in E. subst c.
      rewrite (stream_chunk_newline buf w Hbuf).
      rewrite (IH [] _ eq_refl). simpl app.
      unfold complete_lines, partial_line.
      rewrite (bytes_split_at_sep newline buf out Hbuf).
      rewrite removelast_cons_split, last_cons_split.
      now rewrite with_console_app.
    + rewrite (stream_chunk_other buf c w Hbuf E).
      rewrite IH.
      * now rewrite <- app_assoc.
      * rewrite bytes_contains_app, Hbuf. simpl. now rewrite E.
Qed.

Lemma byte_eqb_sym (a b : byte) : Byte.eqb a b = Byte.eqb b a.
Proof.
  destruct (Byte.eqb a b) eqn:E1, (Byte.eqb b a) eqn:E2; try reflexivity.
  - apply Byte.byte_dec_bl in E1. subst. now rewrite byte_eqb_refl in E2.
  - apply Byte.byte_dec_bl in E2. subst. now rewrite byte_eqb_refl in E1.
Qed.

Lemma bytes_split_parts_free (b : byte) (l : list byte) :
  List.Forall (fun x => bytes_contains b x = false) (bytes_split b l).
Proof.
  induction l as [|c l IH]; simpl.
  - repeat constructor.
  - destruct (Byte.eqb c b) eqn:E.
    + constructor; [reflexivity | exact IH].
    + destruct (bytes_split b l) as [|x xs]; [repeat constructor; simpl|].
      * now rewrite byte_eqb_sym, E.
      * inversion IH as [|? ? Hx Hxs]; subst. constructor; [|exact Hxs].
        simpl. now rewrite byte_eqb_sym, E, Hx.
Qed.

Lemma partial_line_free (out : list byte) :
  bytes_contains newline (partial_line out) = false.
Proof.
  unfold partial_line.
  pose proof (bytes_split_parts_free newline out) as H.
  induction H as [|x l Hx Hl IH]; [reflexivity|].
  destruct l; [exact Hx | exact IH].
Qed.

Lemma stream_app (out1 out2 buf : list byte) (w : World) :
  stream decode (out1 ++ out2) buf w =
  (stream decode out1 buf ≫= stream decode out2) w.
Proof.
  revert buf w. induction out1 as [|c out1 IH]; intros buf w.
  - reflexivity.
  - cbn [app stream]. unfold mbind, M_bind, bind.
    destruct (stream_chunk decode buf c w) as [w1 [buf1|e]]; [|reflexivity].
    rewrite IH. reflexivity.
Qed.

(** Bytes without a line feed are only collected. *)
Lemma stream_partial (tail buf : list byte) (w : World) :
  bytes_contains newline buf = false ->
  bytes_contains newline tail = false ->
  stream decode tail buf w = (w, Ret (buf ++ tail)).
Proof.
  intros Hbuf Htail. rewrite (stream_spec tail buf w Hbuf).
  assert (Hfree : bytes_contains newline (buf ++ tail) = false)
    by now rewrite bytes_contains_app, Hbuf, Htail.
  unfold complete_lines, partial_line.
  rewrite (bytes_split_free _ _ Hfree). simpl. now rewrite with_console_nil.
Qed.

(** What follows the last line feed changes nothing on the console. *)
Lemma stream_tail (body tail : list byte) (w : World) :
  bytes_contains newline tail = false ->
  stream decode (body ++ tail) [] w =
    (with_console w (map (shown decode) (complete_lines body)),
     Ret (partial_line body ++ tail)).
Proof.
  intros Htail. rewrite stream_app. unfold mbind, M_bind, bind.
  rewrite (stream_spec body [] w eq_refl). cbn [app].
  apply stream_partial; [apply partial_line_free | exact Htail].
Qed.

(** The verdict that [run_encoding] prints last. *)
Lemma run_encoding_runs (command : list string) (p : process) (w : World) :
  run_encoding decode command (Runs p) w =
    ({| files := files w ∪ creates p;
        dirs := dirs w;
        console :=
          console w
          ++ [Colors.BLUE +:+ "INFO: " +:+ ("Running command: " +:+ PyStr.join " " command)
              +:+ Colors.RESET]
          ++ map (shown decode) (complete_lines (stdout p))
          ++ [if (returncode p =? 0)%Z
              then Colors.GREEN +:+ "INFO: Encoding process completed successfully."
                   +:+ Colors.RESET
              else Colors.YELLOW +:+ "WARNING: "
                   +:+ ("Encoding process failed with return code "
                        +:+ PyStr.of_Z (returncode p) +:+ ".") +:+ Colors.RESET] |},
     Ret (returncode p =? 0)%Z).
Proof.
  unfold run_encoding, try_, log_info, log_warning, print, Popen, wait.
  unfold mbind, M_bind, bind, mret, M_ret, ret.
  rewrite (stream_spec (stdout p) [] _ eq_refl). cbn [app with_console files dirs console].
  destruct (returncode p =? 0)%Z; cbn; rewrite <- !app_assoc; reflexivity.
Qed.

End Streaming.

(** ** The result of run_encoding *)

(** C10: the bytes after the last line feed of the child's output are
    never printed: the loop prints the complete lines of the output and
    ends with the rest in its buffer, and [run_encoding] behaves as if
    the child had not written them. *)
Theorem trailing_partial_line_is_dropped
    (decode : list byte -> string) (command : list string)
    (body tail : list byte) (code : Z) (made : gset string) (w : World) :
  bytes_contains newline tail = false ->
  stream decode (body ++ tail) [] w =
    (with_console w (map (shown decode) (complete_lines body)),
     Ret (partial_line body ++ tail))
  /\ run_encoding decode command
       (Runs {| stdout := body ++ tail; returncode := code; creates := made |}) w
     = run_encoding decode command
         (Runs {| stdout := body; returncode := code; creates := made |}) w.
Proof.
  intros Htail. split; [now apply stream_tail|].
  rewrite !run_encoding_runs. cbn [stdout returncode creates].
  pose proof (stream_tail decode body tail w Htail) as H1.
  rewrite (stream_spec decode (body ++ tail) [] w eq_refl) in H1.
  cbn [app] in H1. injection H1 as H1 _.
  apply app_inv_head in H1. now rewrite H1.
Qed.

(** ** construct_command *)

Lemma dict_get_contains (k : string) (d : dict) (v : value) :
  dict_get k d = Some v -> dict_contains k d = true.
Proof.
  induction d as [|[k' v'] d IH]; simpl; [discriminate|].
  destruct (String.eqb k' k); [reflexivity | exact IH].
Qed.


Lemma flag_pairs_cons (w : World) (k : string) (v : value) (items : dict) :
  flag_pairs w ((k, v) :: items) =
  (if is_None v then [] else ["--" +:+ k; flag_token w v]) ++ flag_pairs w items.
Proof. unfold flag_pairs. simpl. unfold not_None. simpl. now destruct (is_None v). Qed.


(** The loop over the items reads the filesystem and changes nothing. *)
Lemma quote_value_spec (v : value) (w : World) :
  exists v', quote_value v w = (w, Ret v')
             /\ is_None v' = is_None v
             /\ py_str v' = flag_token w v.
Proof.
  destruct v as [| b | z | r | s]; try (eexists; repeat split; reflexivity).
  unfold quote_value, flag_token, has_separator.
  destruct (PyStr.contains "\" s || PyStr.contains "/" s); cbn [andb].
  - unfold mbind, M_bind, bind, exists_.
    destruct (path_exists w (PosixPath.Path s) || PyStr.contains "temp" s);
      eexists; repeat split; reflexivity.
  - eexists; repeat split; reflexivity.
Qed.

Lemma add_arguments_spec (items : dict) (command : list string) (w : World) :
  add_arguments items command w = (w, Ret (command ++ flag_pairs w items)).
Proof.
  revert command. induction items as [|[k v] items IH]; intros command.
  - cbn. now rewrite app_nil_r.
  - cbn [add_arguments]. unfold mbind, M_bind, bind.
    destruct (quote_value_spec v w) as (v' & -> & Hnone & Hstr).
    rewrite IH, flag_pairs_cons, Hnone.
    destruct (is_None v); [reflexivity|].
    rewrite Hstr, <- !app_assoc. reflexivity.
Qed.

(** The tokens before and after the flags of the configuration. *)
Lemma construct_command_spec (sys_executable : string) (config : dict)
    (watch output script : string) (w : World) :
  dict_get encoder_script_path config = Some (VStr script) ->
  construct_command sys_executable config watch output w =
    (w, Ret ([PyStr.quoted (PosixPath.str (PosixPath.Path sys_executable)); "-u";
              PyStr.quoted (PosixPath.str (PosixPath.Path script))]
             ++ flag_pairs w (dict_remove encoder_script_path config)
             ++ ["--input";
                 PyStr.quoted (PosixPath.str
                   (PosixPath.div (PosixPath.Path watch) "DolbyMaster.mov"));
                 "--input-metadata";
                 PyStr.quoted (PosixPath.str
                   (PosixPath.div (PosixPath.Path watch) "DolbyMetadata.xml"));
                 "--output-bl";
                 PyStr.quoted (PosixPath.str
                   (PosixPath.div (PosixPath.Path output)
                      (PosixPath.name (PosixPath.Path watch) +:+ "_bl.h265")));
                 "--output-el";
                 PyStr.quoted (PosixPath.str
                   (PosixPath.div (PosixPath.Path output)
                      (PosixPath.name (PosixPath.Path watch) +:+ "_el.h265")))],
              dict_remove encoder_script_path config)).
Proof.
  intros Hget. unfold construct_command.
  rewrite (dict_get_contains _ _ _ Hget), Hget. cbn [negb].
  unfold mbind, M_bind, bind, mret, M_ret, ret.
  rewrite add_arguments_spec. cbn [app]. rewrite <- !app_assoc. reflexivity.
Qed.

(** Without the reserved key the call ends the process with status 1
    and leaves the mapping alone. *)
Lemma construct_command_missing_key (sys_executable : string) (config : dict)
    (watch output : string) (w : World) :
  dict_contains encoder_script_path config = false ->
  construct_command sys_executable config watch output w =
    (with_console w
       [Colors.RED +:+ "ERROR: "
        +:+ "Config file must contain 'encoder_script_path' pointing to 'encode_dvmezz_to_dv7.py'"
        +:+ Colors.RESET],
     Raise (SystemExit 1)).
Proof.
  intros H. unfold construct_command. rewrite H. reflexivity.
Qed.

(** ** Paths *)

Lemma prefix_nil (s : string) : String.prefix EmptyString s = true.
Proof. now destruct s. Qed.

Lemma contains_char_cons (a c : ascii) (s : string) :
  PyStr.contains (String a EmptyString) (String c s)
  = Ascii.eqb c a || PyStr.contains (String a EmptyString) s.
Proof.
  cbn [PyStr.contains String.prefix]. rewrite Ascii.eqb_sym.
  destruct (Ascii.ascii_dec a c) as [->|Hne].
  - now rewrite Ascii.eqb_refl, prefix_nil.
  - apply Ascii.eqb_neq in Hne. now rewrite Hne.
Qed.

Lemma contains_char_append (a : ascii) (s t : string) :
  PyStr.contains (String a EmptyString) (s +:+ t)
  = PyStr.contains (String a EmptyString) s || PyStr.contains (String a EmptyString) t.
Proof.
  induction s as [|c s IH]; [reflexivity|].
  cbn [String.append]. rewrite !contains_char_cons, IH. now rewrite orb_assoc.
Qed.

Lemma split_nonempty (a : ascii) (s : string) : PyStr.split a s <> [].
Proof.
  destruct s as [|c s]; simpl; [discriminate|].
  destruct (Ascii.eqb c a); [discriminate|].
  destruct (PyStr.split a s); discriminate.
Qed.

Lemma split_free (a : ascii) (s : string) :
  PyStr.contains (String a EmptyString) s = false -> PyStr.split a s = [s].
Proof.
  induction s as [|c s IH]; [reflexivity|].
  rewrite contains_char_cons. intros H. apply orb_false_iff in H as [Hc Hs].
  simpl. now rewrite Hc, (IH Hs).
Qed.

Lemma split_parts_free (a : ascii) (s : string) :
  List.Forall (fun x => PyStr.contains (String a EmptyString) x = false) (PyStr.split a s).
Proof.
  induction s as [|c s IH]; simpl.
  - repeat constructor.
  - destruct (Ascii.eqb c a) eqn:E.
    + constructor; [reflexivity | exact IH].
    + destruct (PyStr.split a s) as [|x xs].
      * repeat constructor. now rewrite contains_char_cons, E.
      * inversion IH as [|? ? Hx Hxs]; subst. constructor; [|exact Hxs].
        now rewrite contains_char_cons, E, Hx.
Qed.

Lemma split_at_sep (a : ascii) (s t : string) :
  PyStr.split a (s +:+ String a t) = PyStr.split a s ++ PyStr.split a t.
Proof.
  induction s as [|c s IH]; simpl.
  - now rewrite Ascii.eqb_refl.
  - destruct (Ascii.eqb c a); rewrite IH; [reflexivity|].
    destruct (PyStr.split a s) as [|x xs] eqn:E; [|reflexivity].
    now apply split_nonempty in E.
Qed.

Lemma lstrip_free (a : ascii) (s : string) :
  PyStr.contains (String a EmptyString) s = false -> PyStr.lstrip_char a s = s.
Proof.
  destruct s as [|c s]; [reflexivity|].
  rewrite contains_char_cons. intros H. apply orb_false_iff in H as [Hc _].
  simpl. now rewrite Hc.
Qed.

(** The components of a path come from the text after its leading
    slashes. *)
Lemma Path_segs (s : string) :
  PosixPath.segs (PosixPath.Path s)
  = PosixPath.components (PyStr.lstrip_char PosixPath.sep s).
Proof.
  unfold PosixPath.Path, PosixPath.splitroot.
  destruct s as [|c s]; [reflexivity|].
  destruct (Ascii.eqb c PosixPath.sep) eqn:E.
  - destruct (Nat.eqb _ 2); reflexivity.
  - simpl. now rewrite E.
Qed.

Lemma lstrip_before_leaf (parent leaf : string) :
  PyStr.contains "/" leaf = false ->
  PyStr.lstrip_char PosixPath.sep (parent +:+ String PosixPath.sep leaf) = leaf
  \/ exists x, PyStr.lstrip_char PosixPath.sep (parent +:+ String PosixPath.sep leaf)
               = x +:+ String PosixPath.sep leaf.
Proof.
  intros Hleaf. induction parent as [|c parent IH].
  - left. cbn. now apply lstrip_free.
  - cbn [String.append PyStr.lstrip_char].
    destruct (Ascii.eqb c PosixPath.sep); [exact IH|].
    right. now exists (String c parent).
Qed.

Lemma components_leaf (leaf : string) :
  is_component leaf = true -> PosixPath.components leaf = [leaf].
Proof.
  unfold is_component. intros H.
  apply andb_true_iff in H as [H Hfree]. apply negb_true_iff in Hfree.
  unfold PosixPath.components, PosixPath.sep. rewrite (split_free _ _ Hfree).
  simpl. unfold PosixPath.keep_part. now rewrite H.
Qed.

Lemma components_before_leaf (x leaf : string) :
  is_component leaf = true ->
  PosixPath.components (x +:+ String PosixPath.sep leaf)
  = PosixPath.components x ++ [leaf].
Proof.
  intros H. unfold PosixPath.components.
  rewrite split_at_sep, List.filter_app.
  f_equal. now apply components_leaf.
Qed.

(** The name of a path is its last component, however deep the parent
    is. *)
Lemma name_of_leaf (parent leaf : string) :
  is_component leaf = true ->
  PosixPath.name (PosixPath.Path (parent +:+ "/" +:+ leaf)) = leaf
  /\ PosixPath.name (PosixPath.Path leaf) = leaf.
Proof.
  intros H. assert (Hfree : PyStr.contains "/" leaf = false).
  { unfold is_component in H. apply andb_true_iff in H as [_ H].
    now apply negb_true_iff in H. }
  unfold PosixPath.name. rewrite !Path_segs. split.
  - change ("/" +:+ leaf) with (String PosixPath.sep leaf).
    destruct (lstrip_before_leaf parent leaf Hfree) as [-> | [x ->]].
    + now rewrite components_leaf.
    + rewrite components_before_leaf by exact H. apply last_last.
  - rewrite lstrip_free by exact Hfree. now rewrite components_leaf.
Qed.

Lemma name_free (s : string) :
  PyStr.contains "/" (PosixPath.name (PosixPath.Path s)) = false.
Proof.
  unfold PosixPath.name. rewrite Path_segs. unfold PosixPath.components.
  pose proof (split_parts_free PosixPath.sep (PyStr.lstrip_char PosixPath.sep s)) as H.
  induction H as [|x l Hx Hl IH]; [reflexivity|].
  simpl. destruct (PosixPath.keep_part x); [|exact IH].
  destruct (List.filter PosixPath.keep_part l) eqn:E; [exact Hx | exact IH].
Qed.

(** Joining a name that holds no slash appends one component. *)
Lemma div_single (p : PosixPath.PurePath) (n suffix : string) :
  PyStr.contains "/" n = false ->
  PyStr.contains "/" suffix = false ->
  (2 <= String.length suffix)%nat ->
  PosixPath.div p (n +:+ suffix)
  = {| PosixPath.root := PosixPath.root p;
       PosixPath.segs := PosixPath.segs p ++ [n +:+ suffix] |}.
Proof.
  intros Hn Hs Hlen.
  assert (Hfree : PyStr.contains "/" (n +:+ suffix) = false)
    by now rewrite contains_char_append, Hn, Hs.
  assert (Hkeep : PosixPath.keep_part (n +:+ suffix) = true).
  { unfold PosixPath.keep_part.
    destruct (String.eqb_spec (n +:+ suffix) EmptyString) as [E|_].
    { apply (f_equal String.length) in E. rewrite length_append in E. simpl in E. lia. }
    destruct (String.eqb_spec (n +:+ suffix) ".") as [E|_]; [|reflexivity].
    apply (f_equal String.length) in E. rewrite length_append in E. simpl in E. lia. }
  assert (HP : PosixPath.Path (n +:+ suffix)
               = {| PosixPath.root := EmptyString; PosixPath.segs := [n +:+ suffix] |}).
  { unfold PosixPath.Path, PosixPath.splitroot, PosixPath.components, PosixPath.sep.
    destruct (n +:+ suffix) as [|c r] eqn:E.
    - discriminate.
    - rewrite contains_char_cons in Hfree. apply orb_false_iff in Hfree as [Hc Hr].
      rewrite Hc.
      rewrite split_free by now rewrite contains_char_cons, Hc, Hr.
      simpl. now rewrite Hkeep. }
  unfold PosixPath.div. now rewrite HP.
Qed.

(** ** The mapping after the reserved key is taken out *)

Lemma filter_absent_key (k : string) (d : dict) :
  k ∉ map fst d -> List.filter (other_key k) d = d.
Proof.
  induction d as [|[k' v] d IH]; [reflexivity|].
  cbn [map fst List.filter]. intros H. apply not_elem_of_cons in H as [Hne Hin].
  unfold other_key at 1. cbn [fst].
  destruct (String.eqb_spec k' k) as [->|_]; [congruence|].
  cbn [negb]. f_equal. now apply IH.
Qed.

Lemma dict_remove_filter (k : string) (d : dict) :
  dict_wf d -> dict_remove k d = List.filter (other_key k) d.
Proof.
  unfold dict_wf. induction d as [|[k' v] d IH]; [reflexivity|].
  cbn [map fst List.filter dict_remove]. intros H. apply NoDup_cons in H as [Hin Hd].
  unfold other_key at 1. cbn [fst].
  destruct (String.eqb_spec k' k) as [->|Hne]; cbn [negb].
  - symmetry. now apply filter_absent_key.
  - f_equal. now apply IH.
Qed.

Lemma flag_pairs_length (w : World) (items : dict) :
  length (flag_pairs w items) = 2 * length (List.filter not_None items).
Proof.
  unfold flag_pairs. induction (List.filter not_None items) as [|kv l IH]; [reflexivity|].
  simpl. rewrite IH. lia.
Qed.

Lemma split_last_four (a b : list string) (x1 x2 x3 x4 x5 x6 x7 x8 : string) :
  a ++ b ++ [x1; x2; x3; x4; x5; x6; x7; x8]
  = (a ++ b ++ [x1; x2; x3; x4]) ++ [x5; x6; x7; x8].
Proof. now rewrite <- !app_assoc. Qed.


(** C9: the command ends with the two output tokens; each is the output
    folder followed by one more component, the name of the watch folder
    with [_bl.h265] or [_el.h265] appended; and the name of the watch
    folder is its last component whatever the parent is. *)
Theorem output_names_from_watch_folder_name
    (sys_executable : string) (config : dict) (watch output script : string) (w : World) :
  dict_get encoder_script_path config = Some (VStr script) ->
  let base_name := PosixPath.name (PosixPath.Path watch) in
  let artifact suffix :=
    PyStr.quoted (PosixPath.str
      {| PosixPath.root := PosixPath.root (PosixPath.Path output);
         PosixPath.segs := PosixPath.segs (PosixPath.Path output)
                           ++ [base_name +:+ suffix] |}) in
  (exists front,
     (construct_command sys_executable config watch output w).2
     = Ret (front ++ ["--output-bl"; artifact "_bl.h265";
                      "--output-el"; artifact "_el.h265"],
            dict_remove encoder_script_path config))
  /\ (forall parent leaf, is_component leaf = true ->
        watch = parent +:+ "/" +:+ leaf \/ watch = leaf -> base_name = leaf).
Proof.
  intros Hget base_name artifact. split.
  - rewrite (construct_command_spec _ _ _ _ _ _ Hget). cbn [snd].
    unfold artifact, base_name.
    rewrite <- !(div_single (PosixPath.Path output)) by
      (try apply name_free; try reflexivity; simpl; lia).
    rewrite split_last_four. eexists. reflexivity.
  - intros parent leaf Hleaf [-> | ->]; unfold base_name;
      now apply (name_of_leaf parent leaf).
Qed.

(** ** The statements above at the sample inputs *)

Lemma sample_config_wf : dict_wf Sample.config.
Proof.
  apply (bool_decide_unpack (NoDup (map fst Sample.config))). vm_compute. exact I.
Defined.

Lemma output_names_from_watch_folder_name_witness :
  dict_get encoder_script_path Sample.config
  = Some (VStr "/opt/dv/encode_dvmezz_to_dv7.py")
  /\ (exists front,
        (construct_command Sample.python Sample.config "/mnt/in/reel1" "/mnt/out"
           Sample.world).2
        = Ret (front ++ ["--output-bl"; PyStr.quoted "/mnt/out/reel1_bl.h265";
                         "--output-el"; PyStr.quoted "/mnt/out/reel1_el.h265"],
               dict_remove encoder_script_path Sample.config))
  /\ (forall parent leaf, is_component leaf = true ->
        "/mnt/in/reel1" = parent +:+ "/" +:+ leaf \/ "/mnt/in/reel1" = leaf ->
        PosixPath.name (PosixPath.Path "/mnt/in/reel1") = leaf).
Proof.
  split; [reflexivity|].
  apply (output_names_from_watch_folder_name Sample.python Sample.config
           "/mnt/in/reel1" "/mnt/out" "/opt/dv/encode_dvmezz_to_dv7.py" Sample.world).
  reflexivity.
Defined.

Lemma trailing_partial_line_is_dropped_witness :
  bytes_contains newline Sample.tail = false
  /\ stream Sample.decode (Sample.body ++ Sample.tail) [] Sample.world
     = (with_console Sample.world
          (map (shown Sample.decode) (complete_lines Sample.body)),
        Ret (partial_line Sample.body ++ Sample.tail))
  /\ run_encoding Sample.decode ["encode"]
       (Runs {| stdout := Sample.body ++ Sample.tail; returncode := 0; creates := ∅ |})
       Sample.world
     = run_encoding Sample.decode ["encode"]
         (Runs {| stdout := Sample.body; returncode := 0; creates := ∅ |})
         Sample.world.
Proof.
  split; [reflexivity|].
  apply (trailing_partial_line_is_dropped Sample.decode ["encode"]
           Sample.body Sample.tail 0 ∅ Sample.world).
  reflexivity.
Defined.

(** ** The configuration mapping across calls *)

(** After a call the mapping has lost the reserved key and kept every
    other item. *)
Lemma construct_command_leaves_other_items
    (sys_executable : string) (config : dict) (watch output script : string) (w : World) :
  dict_wf config ->
  dict_get encoder_script_path config = Some (VStr script) ->
  exists command config',
    (construct_command sys_executable config watch output w).2 = Ret (command, config')
    /\ dict_contains encoder_script_path config' = false
    /\ config' = List.filter (other_key encoder_script_path) config.
Proof.
  intros Hwf Hget. rewrite (construct_command_spec _ _ _ _ _ _ Hget).
  eexists _, _. split; [reflexivity|]. rewrite (dict_remove_filter _ _ Hwf).
  split; [|reflexivity].
  unfold dict_contains. apply not_true_is_false. intros H.
  apply existsb_exists in H as [[k v] [Hin Hk]].
  apply filter_In in Hin as [_ Hother]. unfold other_key in Hother.
  cbn [fst] in *. rewrite Hk in Hother. discriminate.
Qed.

(** C1: at the sample configuration the mapping that comes back from
    [construct_command] is not the mapping that went in: the reserved
    key is gone, and a second call on it ends the process with
    status 1. *)
Theorem construct_command_changes_the_mapping :
  exists command config',
    (construct_command Sample.python Sample.config "/mnt/in/reel1" "/mnt/out"
       Sample.world).2 = Ret (command, config')
    /\ dict_contains encoder_script_path Sample.config = true
    /\ dict_contains encoder_script_path config' = false
    /\ config' <> Sample.config
    /\ (construct_command Sample.python config' "/mnt/in/reel1" "/mnt/out"
          Sample.world).2 = Raise (SystemExit 1).
Proof.
  eexists _, _. split; [vm_compute; reflexivity|].
  repeat split; try reflexivity. discriminate.
Qed.

(** ** The loop after a failed encode *)

(** C2: with both inputs in the watch folder and an encoder that exits
    with 2, the first turn of the loop prints the warning, leaves both
    inputs where they are and goes on; the second turn finds the same
    pair again and ends the process with status 1, because the reserved
    key is no longer in the mapping. *)
Theorem retry_after_failed_encode_exits :
  let first := main Sample.python Sample.decode Sample.args
                 (Sample.startup Sample.config) [Sample.failing_cycle] Sample.world in
  let second := main Sample.python Sample.decode Sample.args
                  (Sample.startup Sample.config)
                  [Sample.failing_cycle; Sample.failing_cycle] Sample.world in
  exit_status first.2 = None
  /\ files first.1 = files Sample.world
  /\ In (Colors.YELLOW +:+ "WARNING: Encoding process failed with return code 2."
         +:+ Colors.RESET) (console first.1)
  /\ exit_status second.2 = Some 1%Z
  /\ files second.1 = files Sample.world
  /\ List.last (console second.1) EmptyString
     = Colors.RED +:+ "ERROR: Config file must contain 'encoder_script_path' pointing to 'encode_dvmezz_to_dv7.py'"
       +:+ Colors.RESET.
Proof.
  cbv zeta. repeat split; try (vm_compute; reflexivity).
  vm_compute. repeat first [left; reflexivity | right].
Qed.

(** ** One turn of the loop *)

Lemma path_exists_file (w : World) (p : PosixPath.PurePath) :
  PosixPath.str p ∈ files w -> path_exists w p = true.
Proof. intros H. unfold path_exists. apply bool_decide_eq_true. set_solver. Qed.

Lemma join_snoc_inj (sep : string) (l : list string) (x y : string) :
  PyStr.join sep (l ++ [x]) = PyStr.join sep (l ++ [y]) -> x = y.
Proof.
  unfold PyStr.join. induction l as [|a l IH]; [auto|].
  destruct l as [|b l]; cbn [app String.concat] in *; intros H.
  - now apply append_inj_l, append_inj_l in H.
  - apply append_inj_l, append_inj_l in H. now apply IH.
Qed.

Lemma str_snoc (r : string) (l : list string) (x : string) :
  PosixPath.str {| PosixPath.root := r; PosixPath.segs := l ++ [x] |}
  = r +:+ PyStr.join "/" (l ++ [x]).
Proof. unfold PosixPath.str. cbn. destruct r, l; reflexivity. Qed.

(** The two inputs have different names. *)
Lemma input_names_differ (args : Args) : input_xml args <> input_mov args.
Proof.
  unfold input_xml, input_mov.
  change (PosixPath.div (PosixPath.Path (watch_folder args)) "DolbyMetadata.xml")
    with {| PosixPath.root := PosixPath.root (PosixPath.Path (watch_folder args));
            PosixPath.segs := PosixPath.segs (PosixPath.Path (watch_folder args))
                              ++ ["DolbyMetadata.xml"] |}.
  change (PosixPath.div (PosixPath.Path (watch_folder args)) "DolbyMaster.mov")
    with {| PosixPath.root := PosixPath.root (PosixPath.Path (watch_folder args));
            PosixPath.segs := PosixPath.segs (PosixPath.Path (watch_folder args))
                              ++ ["DolbyMaster.mov"] |}.
  rewrite !str_snoc. intros H.
  apply append_inj_l, join_snoc_inj in H. discriminate.
Qed.

(** The turn up to the verdict of [run_encoding], when both inputs are
    there, the reserved key is a string and the child runs to its end. *)
Ltac enter_turn Hmov Hxml Hget Hpopen :=
  unfold turn, iteration; unfold mbind, M_bind, bind, exists_;
  unfold input_mov, input_xml, archived_mov, archived_xml in *;
  rewrite (path_exists_file _ _ Hmov), (path_exists_file _ _ Hxml);
  cbn [andb]; unfold log_info at 1; unfold print at 1;
  rewrite (construct_command_spec _ _ _ _ _ _ Hget);
  rewrite Hpopen, run_encoding_runs.

Lemma turn_first_move_fails
    (sys_executable : string) (decode : list byte -> string)
    (args : Args) (c : Cycle) (config : dict) (script msg : string) (p : process)
    (w : World) :
  inputs_in_place args w ->
  dict_get encoder_script_path config = Some (VStr script) ->
  popen c = Runs p ->
  returncode p = 0%Z ->
  move_raises c (input_mov args) (archived_mov args (strftime c)) = Some msg ->
  exists w', turn sys_executable decode args c config w = (w', Raise (SystemExit 1))
             /\ files w' = files w ∪ creates p.
Proof.
  intros [Hmov Hxml] Hget Hpopen Hcode Hmv. eexists. split.
  - enter_turn Hmov Hxml Hget Hpopen. rewrite Hcode. cbn [Z.eqb].
    unfold try_. unfold shutil_move at 1. rewrite Hmv. reflexivity.
  - reflexivity.
Qed.

Lemma turn_second_move_fails
    (sys_executable : string) (decode : list byte -> string)
    (args : Args) (c : Cycle) (config : dict) (script msg : string) (p : process)
    (w : World) :
  inputs_in_place args w ->
  dict_get encoder_script_path config = Some (VStr script) ->
  popen c = Runs p ->
  returncode p = 0%Z ->
  move_raises c (input_mov args) (archived_mov args (strftime c)) = None ->
  move_raises c (input_xml args) (archived_xml args (strftime c)) = Some msg ->
  exists w', turn sys_executable decode args c config w = (w', Raise (SystemExit 1))
             /\ files w' = {[archived_mov args (strftime c)]}
                            ∪ ((files w ∪ creates p) ∖ {[input_mov args]}).
Proof.
  intros [Hmov Hxml] Hget Hpopen Hcode Hmv1 Hmv2. eexists. split.
  - enter_turn Hmov Hxml Hget Hpopen. rewrite Hcode. cbn [Z.eqb].
    unfold try_. unfold shutil_move at 1. rewrite Hmv1.
    cbn [files dirs console]. rewrite bool_decide_eq_true_2 by set_solver.
    unfold shutil_move at 1. rewrite Hmv2. reflexivity.
  - reflexivity.
Qed.

(** C4, as the code has it: after a successful encode a failing move
    ends the process with status 1, with the files of the encoder
    written.  When the move of the master fails, both inputs are still
    in the watch folder; when the move of the metadata file fails, the
    master is already under its archive name and only the metadata file
    is left in the watch folder. *)
Theorem archive_failure_end_state
    (sys_executable : string) (decode : list byte -> string)
    (args : Args) (c : Cycle) (config : dict) (script : string) (p : process) (w : World) :
  inputs_in_place args w ->
  dict_get encoder_script_path config = Some (VStr script) ->
  popen c = Runs p ->
  returncode p = 0%Z ->
  let mov := input_mov args in
  let xml := input_xml args in
  let kept := archived_mov args (strftime c) in
  let final := turn sys_executable decode args c config w in
  (forall msg, move_raises c mov kept = Some msg ->
     final.2 = Raise (SystemExit 1)
     /\ files final.1 = files w ∪ creates p
     /\ inputs_in_place args final.1)
  /\ (forall msg, move_raises c mov kept = None ->
        move_raises c xml (archived_xml args (strftime c)) = Some msg ->
        final.2 = Raise (SystemExit 1)
        /\ files final.1 = {[kept]} ∪ ((files w ∪ creates p) ∖ {[mov]})
        /\ kept ∈ files final.1
        /\ xml ∈ files final.1
        /\ (kept <> mov -> mov ∉ files final.1)).
Proof.
  intros Hin Hget Hpopen Hcode mov xml kept final.
  pose proof (input_names_differ args) as Hdiff.
  pose proof Hin as [Hmov Hxml].
  subst mov xml kept final. split.
  - intros msg Hmv.
    destruct (turn_first_move_fails sys_executable decode args c config script msg p w
                Hin Hget Hpopen Hcode Hmv) as (w' & -> & Hfiles).
    cbn [fst snd]. unfold inputs_in_place. rewrite Hfiles.
    split; [reflexivity | split; [reflexivity | set_solver]].
  - intros msg Hmv1 Hmv2.
    destruct (turn_second_move_fails sys_executable decode args c config script msg p w
                Hin Hget Hpopen Hcode Hmv1 Hmv2) as (w' & -> & Hfiles).
    cbn [fst snd]. rewrite Hfiles.
    split; [reflexivity | split; [reflexivity | set_solver]].
Qed.

(** ** What ends the process *)













(** ** The sample runs *)

Ltac by_computation :=
  match goal with
  | |- ?P => apply (bool_decide_unpack P); vm_compute; exact I
  end.

Lemma sample_inputs_in_place : inputs_in_place Sample.args Sample.world.
Proof. split; by_computation. Defined.


(** C4 fails as worded: the encoder succeeds, the move of the metadata
    file fails, the process ends with status 1, and the master is no
    longer in the watch folder: it is already under its archive name. *)
Lemma archive_failure_moves_the_master :
  let final := main Sample.python Sample.decode Sample.args
                 (Sample.startup Sample.config) [Sample.second_move_fails]
                 Sample.world in
  popen Sample.second_move_fails = Runs Sample.encoder_ok
  /\ returncode Sample.encoder_ok = 0%Z
  /\ move_raises Sample.second_move_fails (input_xml Sample.args)
       (archived_xml Sample.args "20250101-120000")
     = Some "[Errno 28] No space left on device"
  /\ exit_status final.2 = Some 1%Z
  /\ ~ inputs_in_place Sample.args final.1
  /\ (input_mov Sample.args ∉ files (final.1))
  /\ archived_mov Sample.args "20250101-120000" ∈ files final.1.
Proof.
  cbv zeta. split; [reflexivity | split; [reflexivity | split; [reflexivity|]]].
  split; [vm_compute; reflexivity|].
  assert (Hgone : input_mov Sample.args
                  ∉ files (main Sample.python Sample.decode Sample.args
                             (Sample.startup Sample.config) [Sample.second_move_fails]
                             Sample.world).1) by by_computation.
  split; [intros [H _]; exact (Hgone H) | split; [exact Hgone | by_computation]].
Qed.

Lemma archive_failure_end_state_witness :
  inputs_in_place Sample.args Sample.world
  /\ dict_get encoder_script_path Sample.config
     = Some (VStr "/opt/dv/encode_dvmezz_to_dv7.py")
  /\ popen Sample.second_move_fails = Runs Sample.encoder_ok
  /\ returncode Sample.encoder_ok = 0%Z
  /\ (let final := turn Sample.python Sample.decode Sample.args
                     Sample.second_move_fails Sample.config Sample.world in
      final.2 = Raise (SystemExit 1)
      /\ archived_mov Sample.args "20250101-120000" ∈ files final.1
      /\ input_xml Sample.args ∈ files final.1).
Proof.
  split; [exact sample_inputs_in_place|].
  split; [reflexivity | split; [reflexivity | split; [reflexivity|]]].
  destruct (archive_failure_end_state Sample.python Sample.decode Sample.args
              Sample.second_move_fails Sample.config
              "/opt/dv/encode_dvmezz_to_dv7.py" Sample.encoder_ok Sample.world
              sample_inputs_in_place eq_refl eq_refl eq_refl) as [_ H].
  destruct (H "[Errno 28] No space left on device" eq_refl eq_refl)
    as (Hexit & _ & Hkept & Hxml & _).
  cbv zeta. split; [exact Hexit | split; [exact Hkept | exact Hxml]].
Defined.

Lemma classify_error_before_warning_witness :
  mentions "error" "Warning: ERROR in frame 7"
  /\ mentions "warning" "Warning: ERROR in frame 7"
  /\ colorize "Warning: ERROR in frame 7"
     = Colors.RED +:+ "Warning: ERROR in frame 7" +:+ Colors.RESET.
Proof.
  assert (He : mentions "error" "Warning: ERROR in frame 7")
    by (exists "Warning: ", "ERROR", " in frame 7"; split; reflexivity).
  assert (Hw : mentions "warning" "Warning: ERROR in frame 7")
    by (exists EmptyString, "Warning", ": ERROR in frame 7"; split; reflexivity).
  split; [exact He | split; [exact Hw|]].
  exact (proj2 (proj2 (proj2 (classify_error_before_warning "Warning: ERROR in frame 7")))
           He Hw).
Defined.

(** * Further properties *)

(** ** Paths printed and parsed again *)

Lemma filter_keep_all (l : list string) :
  List.Forall (fun x => PosixPath.keep_part x = true /\ PyStr.contains "/" x = false) l ->
  List.filter PosixPath.keep_part l = l.
Proof.
  induction 1 as [|x l [Hx _] _ IH]; [reflexivity|].
  cbn [List.filter]. now rewrite Hx, IH.
Qed.

Lemma split_join (l : list string) :
  l <> [] ->
  List.Forall (fun x => PosixPath.keep_part x = true /\ PyStr.contains "/" x = false) l ->
  PyStr.split "/" (PyStr.join "/" l) = l.
Proof.
  intros Hne H. induction H as [|x l [_ Hx] Hl IH]; [congruence|].
  destruct l as [|y l].
  - cbn. now apply split_free.
  - change (PyStr.join "/" (x :: y :: l))
      with (x +:+ String "/" (PyStr.join "/" (y :: l))).
    rewrite split_at_sep, (split_free _ _ Hx), IH by discriminate. reflexivity.
Qed.

Lemma join_head_not_sep (x : string) (l : list string) :
  PosixPath.keep_part x = true -> PyStr.contains "/" x = false ->
  exists c r, PyStr.join "/" (x :: l) = String c r /\ Ascii.eqb c "/" = false.
Proof.
  intros Hkeep Hfree. destruct x as [|c x]; [discriminate|].
  rewrite contains_char_cons in Hfree. apply orb_false_iff in Hfree as [Hc _].
  destruct l as [|y l]; eexists c, _; (split; [reflexivity | exact Hc]).
Qed.

Lemma Path_wf (s : string) : path_wf (PosixPath.Path s).
Proof.
  split.
  - unfold PosixPath.Path, PosixPath.splitroot.
    destruct s as [|c s]; [now left|].
    destruct (Ascii.eqb c PosixPath.sep); [|now left].
    destruct (Nat.eqb _ 2); cbn; auto.
  - rewrite Path_segs. unfold PosixPath.components.
    pose proof (split_parts_free PosixPath.sep (PyStr.lstrip_char PosixPath.sep s)) as H.
    induction H as [|x l Hx _ IH]; [constructor|].
    cbn [List.filter]. destruct (PosixPath.keep_part x) eqn:E; [|exact IH].
    constructor; [split; [exact E | exact Hx] | exact IH].
Qed.

(** [Path(str(p)) == p] for every path that [Path] builds. *)
Lemma Path_str (p : PosixPath.PurePath) :
  path_wf p -> PosixPath.Path (PosixPath.str p) = p.
Proof.
  destruct p as [r l]. intros [Hroot Hsegs]. cbn [PosixPath.root PosixPath.segs] in *.
  destruct l as [|x l].
  - destruct Hroot as [-> | [-> | ->]]; reflexivity.
  - pose proof Hsegs as Hall. inversion Hsegs as [|? ? [Hkeep Hfree] _]; subst.
    destruct (join_head_not_sep x l Hkeep Hfree) as (c & rest & HJ & Hc).
    assert (Hcomp : PosixPath.components (PyStr.join "/" (x :: l)) = x :: l).
    { unfold PosixPath.components, PosixPath.sep.
      rewrite split_join by (discriminate || exact Hall). now apply filter_keep_all. }
    assert (Hstr : PosixPath.str {| PosixPath.root := r; PosixPath.segs := x :: l |}
                   = r +:+ PyStr.join "/" (x :: l)).
    { unfold PosixPath.str. cbn. now destruct r. }
    rewrite Hstr. unfold PosixPath.Path, PosixPath.splitroot, PosixPath.sep.
    destruct Hroot as [-> | [-> | ->]]; cbn [String.append].
    + rewrite HJ, Hc, <- HJ, Hcomp. reflexivity.
    + cbn [Ascii.eqb Bool.eqb]. cbn [PyStr.lstrip_char Ascii.eqb Bool.eqb].
      rewrite HJ. cbn [PyStr.lstrip_char]. rewrite Hc, <- HJ.
      cbn [String.length].
      replace (S (String.length (PyStr.join "/" (x :: l)))
               - String.length (PyStr.join "/" (x :: l))) with 1 by lia.
      cbn [Nat.eqb]. now rewrite Hcomp.
    + cbn [Ascii.eqb Bool.eqb]. cbn [PyStr.lstrip_char Ascii.eqb Bool.eqb].
      rewrite HJ. cbn [PyStr.lstrip_char]. rewrite Hc, <- HJ.
      cbn [String.length].
      replace (S (S (String.length (PyStr.join "/" (x :: l))))
               - String.length (PyStr.join "/" (x :: l))) with 2 by lia.
      cbn [Nat.eqb]. now rewrite Hcomp.
Qed.

(** X1: printing a path and parsing the text again gives the same path,
    as happens to the watch and output folders between [main] and
    [construct_command]. *)
Theorem Path_str_round_trip (s : string) :
  PosixPath.Path (PosixPath.str (PosixPath.Path s)) = PosixPath.Path s.
Proof. apply Path_str, Path_wf. Qed.

Lemma split_middle_four (a b : list string) (x1 x2 x3 x4 x5 x6 x7 x8 : string) :
  a ++ b ++ [x1; x2; x3; x4; x5; x6; x7; x8]
  = (a ++ b) ++ [x1; x2; x3; x4] ++ [x5; x6; x7; x8].
Proof. now rewrite <- !app_assoc. Qed.

(** X2: called the way [main] calls it, [construct_command] passes to
    the encoder the very two files whose existence the loop tested, and
    writes the outputs under the output folder of the arguments. *)
Theorem command_names_the_detected_inputs
    (sys_executable : string) (args : Args) (config : dict) (script : string) (w : World) :
  dict_get encoder_script_path config = Some (VStr script) ->
  exists front,
    (construct_command sys_executable config
       (PosixPath.str (PosixPath.Path (watch_folder args)))
       (PosixPath.str (PosixPath.Path (output_folder args))) w).2
    = Ret (front
           ++ ["--input"; PyStr.quoted (input_mov args);
               "--input-metadata"; PyStr.quoted (input_xml args)]
           ++ ["--output-bl";
               PyStr.quoted (PosixPath.str
                 (PosixPath.div (PosixPath.Path (output_folder args))
                    (PosixPath.name (PosixPath.Path (watch_folder args)) +:+ "_bl.h265")));
               "--output-el";
               PyStr.quoted (PosixPath.str
                 (PosixPath.div (PosixPath.Path (output_folder args))
                    (PosixPath.name (PosixPath.Path (watch_folder args)) +:+ "_el.h265")))],
           dict_remove encoder_script_path config).
Proof.
  intros Hget. rewrite (construct_command_spec _ _ _ _ _ _ Hget).
  rewrite !Path_str by apply Path_wf. cbn [snd].
  rewrite split_middle_four. eexists. reflexivity.
Qed.

Lemma dict_get_none (k : string) (d : dict) :
  dict_get k d = None -> dict_contains k d = false.
Proof.
  induction d as [|[k' v] d IH]; [reflexivity|]. simpl.
  destruct (String.eqb k' k); [discriminate | exact IH].
Qed.

(** ** The lines of the child's output *)

Lemma bytes_split_length (out : list byte) :
  length (bytes_split newline out) = S (count_newlines out).
Proof.
  unfold count_newlines. induction out as [|c out IH]; [reflexivity|].
  cbn [bytes_split List.filter]. rewrite (byte_eqb_sym newline c).
  destruct (Byte.eqb c newline).
  - cbn [length]. now rewrite IH.
  - destruct (bytes_split newline out) as [|x xs]; [discriminate IH|]. exact IH.
Qed.

Lemma removelast_length {A : Type} (l : list A) :
  length (removelast l) = length l - 1.
Proof.
  induction l as [|x l IH]; [reflexivity|].
  destruct l as [|y l]; [reflexivity|].
  cbn [removelast length] in *. rewrite IH. lia.
Qed.

(** ** Turns of the loop *)

(** Without both inputs a turn only sleeps. *)
Lemma idle_turn (sys_executable : string) (decode : list byte -> string)
    (args : Args) (c : Cycle) (config : dict) (w : World) :
  pair_detected args w = false ->
  turn sys_executable decode args c config w
  = (sleep (sleep_interrupted c) (polling_interval args) ;; mret config) w.
Proof.
  unfold pair_detected, turn, iteration. intros H.
  unfold mbind at 1 2 3. unfold M_bind, bind, exists_.
  destruct (path_exists w (PosixPath.div (PosixPath.Path (watch_folder args))
                             "DolbyMaster.mov")); cbn [andb] in *.
  - rewrite H. reflexivity.
  - reflexivity.
Qed.

(** Idle turns in front of the others change nothing. *)
Lemma loop_skips_idle_turns
    (sys_executable : string) (decode : list byte -> string)
    (args : Args) (idle rest : list Cycle) (config : dict) (w : World) :
  pair_detected args w = false ->
  (0 <= polling_interval args)%Z ->
  List.Forall (fun c => sleep_interrupted c = false) idle ->
  loop sys_executable decode args
    (PosixPath.Path (watch_folder args)) (PosixPath.Path (output_folder args))
    (PosixPath.Path (processed_folder args)) (idle ++ rest) config w
  = loop sys_executable decode args
      (PosixPath.Path (watch_folder args)) (PosixPath.Path (output_folder args))
      (PosixPath.Path (processed_folder args)) rest config w.
Proof.
  intros Hpair Hsecs Hidle. induction Hidle as [|c idle Hc _ IH]; [reflexivity|].
  cbn [app loop]. unfold mbind at 1. unfold M_bind, bind.
  fold (turn sys_executable decode args c config).
  rewrite (idle_turn _ _ _ _ _ _ Hpair).
  unfold sleep, mbind, M_bind, bind. rewrite Hc.
  destruct (Z.ltb_spec (polling_interval args) 0); [lia|]. exact IH.
Qed.

(** X5: while the pair of inputs is not there, the loop prints nothing
    and changes nothing, for any number of turns. *)
Theorem loop_idles_until_both_inputs_exist
    (sys_executable : string) (decode : list byte -> string)
    (args : Args) (cycles : list Cycle) (config : dict) (w : World) :
  pair_detected args w = false ->
  (0 <= polling_interval args)%Z ->
  List.Forall (fun c => sleep_interrupted c = false) cycles ->
  loop sys_executable decode args
    (PosixPath.Path (watch_folder args)) (PosixPath.Path (output_folder args))
    (PosixPath.Path (processed_folder args)) cycles config w
  = (w, Ret config).
Proof.
  intros Hpair Hsecs Hcycles.
  rewrite <- (app_nil_r cycles).
  now rewrite (loop_skips_idle_turns _ _ _ _ [] _ _ Hpair Hsecs Hcycles).
Qed.

(** X6: a turn that finds both inputs, runs the encoder to exit code 0
    and moves both files goes on with the loop; the master and the
    metadata file are then under their archive names, the files of the
    encoder are written and no directory has changed. *)
Theorem successful_turn_archives_both_inputs
    (sys_executable : string) (decode : list byte -> string)
    (args : Args) (c : Cycle) (config : dict) (script : string) (p : process) (w : World) :
  inputs_in_place args w ->
  dict_get encoder_script_path config = Some (VStr script) ->
  popen c = Runs p ->
  returncode p = 0%Z ->
  move_raises c (input_mov args) (archived_mov args (strftime c)) = None ->
  move_raises c (input_xml args) (archived_xml args (strftime c)) = None ->
  (0 <= polling_interval args)%Z ->
  sleep_interrupted c = false ->
  exists w',
    turn sys_executable decode args c config w
    = (w', Ret (dict_remove encoder_script_path config))
    /\ files w'
       = {[archived_xml args (strftime c)]}
         ∪ (({[archived_mov args (strftime c)]}
             ∪ ((files w ∪ creates p) ∖ {[input_mov args]}))
            ∖ {[input_xml args]})
    /\ dirs w' = dirs w
    /\ archived_xml args (strftime c) ∈ files w'
    /\ (archived_mov args (strftime c) <> input_xml args ->
        archived_mov args (strftime c) ∈ files w')
    /\ (input_xml args <> archived_xml args (strftime c) -> input_xml args ∉ files w')
    /\ (input_mov args <> archived_mov args (strftime c) ->
        input_mov args <> archived_xml args (strftime c) -> input_mov args ∉ files w').
Proof.
  intros [Hmov Hxml] Hget Hpopen Hcode Hmv1 Hmv2 Hsecs Hsleep.
  pose proof (input_names_differ args) as Hdiff.
  eexists. split.
  - enter_turn Hmov Hxml Hget Hpopen. rewrite Hcode. cbn [Z.eqb].
    unfold try_. unfold shutil_move at 1. rewrite Hmv1.
    cbn [files dirs console]. rewrite bool_decide_eq_true_2 by set_solver.
    unfold shutil_move at 1. rewrite Hmv2.
    cbn [files dirs console]. rewrite bool_decide_eq_true_2 by set_solver.
    unfold sleep. rewrite Hsleep.
    destruct (Z.ltb_spec (polling_interval args) 0); [lia|]. reflexivity.
  - split; [reflexivity | split; [reflexivity|]].
    cbn [files]. unfold input_mov, input_xml, archived_mov, archived_xml in *. set_solver.
Qed.

(** ** The second detection *)

Lemma dict_remove_no_key (k : string) (d : dict) :
  dict_wf d -> dict_contains k (dict_remove k d) = false.
Proof.
  intros Hwf. rewrite (dict_remove_filter _ _ Hwf).
  unfold dict_contains. apply not_true_is_false. intros H.
  apply existsb_exists in H as [[k' v] [Hin Hk]].
  apply filter_In in Hin as [_ Hother]. unfold other_key in Hother.
  cbn [fst] in *. rewrite Hk in Hother. discriminate.
Qed.

(** X7: after a turn in which the encoder exits with a code other than
    0, both inputs are where they were and the loop goes on, but the
    mapping has lost the reserved key: whatever the next turn is, it
    finds the pair again and ends the process with status 1 before it
    starts the encoder or touches a file. *)
Theorem failed_encode_then_next_detection_exits
    (sys_executable : string) (decode : list byte -> string)
    (args : Args) (c : Cycle) (config : dict) (script : string) (p : process) (w : World) :
  dict_wf config ->
  dict_get encoder_script_path config = Some (VStr script) ->
  inputs_in_place args w ->
  popen c = Runs p ->
  returncode p <> 0%Z ->
  (0 <= polling_interval args)%Z ->
  sleep_interrupted c = false ->
  exists w1,
    turn sys_executable decode args c config w
    = (w1, Ret (dict_remove encoder_script_path config))
    /\ files w1 = files w ∪ creates p
    /\ dirs w1 = dirs w
    /\ inputs_in_place args w1
    /\ forall next,
         exists w2,
           turn sys_executable decode args next
             (dict_remove encoder_script_path config) w1
           = (w2, Raise (SystemExit 1))
           /\ files w2 = files w1 /\ dirs w2 = dirs w1.
Proof.
  intros Hwf Hget [Hmov Hxml] Hpopen Hcode Hsecs Hsleep.
  apply Z.eqb_neq in Hcode.
  eexists. split.
  - enter_turn Hmov Hxml Hget Hpopen. rewrite Hcode.
    unfold sleep. rewrite Hsleep.
    destruct (Z.ltb_spec (polling_interval args) 0); [lia|]. reflexivity.
  - cbn [files dirs]. split; [reflexivity | split; [reflexivity|]].
    assert (Hmov1 : input_mov args ∈ files w ∪ creates p) by set_solver.
    assert (Hxml1 : input_xml args ∈ files w ∪ creates p) by set_solver.
    split; [split; assumption|].
    intros next. eexists. split.
    + unfold turn, iteration. unfold mbind, M_bind, bind, exists_.
      unfold input_mov, input_xml in *.
      rewrite !path_exists_file by (cbn [files]; assumption).
      cbn [andb]. unfold log_info at 1. unfold print at 1.
      rewrite construct_command_missing_key by (now apply dict_remove_no_key).
      reflexivity.
    + split; reflexivity.
Qed.

(** ** What a run can do to the files *)

Lemma bind_inv {A B : Type} (m : M A) (k : A -> M B) (w w' : World) (r : result B) :
  (m ≫= k) w = (w', r) ->
  (exists e, m w = (w', Raise e) /\ r = Raise e)
  \/ exists a w1, m w = (w1, Ret a) /\ k a w1 = (w', r).
Proof.
  unfold mbind, M_bind, bind. destruct (m w) as [w1 [a|e]]; intros H.
  - right. now exists a, w1.
  - left. exists e. now injection H as <- <-.
Qed.

Ltac same_files :=
  split; cbn [files dirs with_console]; [set_solver | reflexivity].

Lemma keeps_files_refl (w : World) : keeps_files w w.
Proof. split; [set_solver | reflexivity]. Qed.

Lemma keeps_files_trans (w1 w2 w3 : World) :
  keeps_files w1 w2 -> keeps_files w2 w3 -> keeps_files w1 w3.
Proof. intros [H1 H2] [H3 H4]. split; [set_solver | congruence]. Qed.

Lemma print_keeps_files (line : string) (w w' : World) (r : result unit) :
  print line w = (w', r) -> keeps_files w w'.
Proof. intros [= <- _]. same_files. Qed.

Lemma construct_command_keeps_files (sys_executable : string) (config : dict)
    (watch output : string) (w w' : World) (r : result (list string * dict)) :
  construct_command sys_executable config watch output w = (w', r) -> keeps_files w w'.
Proof.
  destruct (dict_get encoder_script_path config) as [v|] eqn:Hget.
  - destruct v as [| b | z | f | script];
      try (unfold construct_command;
           rewrite (dict_get_contains _ _ _ Hget), Hget;
           intros [= <- _]; same_files).
    rewrite (construct_command_spec _ _ _ _ _ _ Hget).
    intros [= <- _]. same_files.
  - rewrite (construct_command_missing_key _ _ _ _ _ (dict_get_none _ _ Hget)).
    intros [= <- _]. same_files.
Qed.

Lemma run_encoding_keeps_files (decode : list byte -> string) (command : list string)
    (behaviour : popen_behaviour) (w w' : World) (r : result bool) :
  run_encoding decode command behaviour w = (w', r) ->
  keeps_files w w'
  /\ forall ok, r = Ret ok ->
       exists p, behaviour = Runs p /\ ok = (returncode p =? 0)%Z.
Proof.
  destruct behaviour as [p|msg|msg|].
  - rewrite run_encoding_runs. intros [= <- <-]. split.
    + split; cbn [files dirs]; [set_solver | reflexivity].
    + intros ok [= <-]. now exists p.
  - destruct command; cbn; intros [= <- <-];
      (split; [same_files | discriminate]).
  - cbn. intros [= <- <-]. split; [same_files | discriminate].
  - cbn. intros [= <- <-]. split; [same_files | discriminate].
Qed.

Lemma sleep_keeps_world (i : bool) (secs : Z) (w w' : World) (r : result unit) :
  sleep i secs w = (w', r) -> w' = w.
Proof.
  unfold sleep. destruct (secs <? 0)%Z; [now intros [= <- _]|].
  destruct i; now intros [= <- _].
Qed.

(** A turn without a successful encode removes no file and changes no
    directory. *)
Lemma iteration_keeps_files (sys_executable : string) (decode : list byte -> string)
    (args : Args) (watch_path output_path processed_path : PosixPath.PurePath)
    (c : Cycle) (config : dict) (w w' : World) (r : result dict) :
  no_successful_encode c ->
  iteration sys_executable decode args watch_path output_path processed_path c config w
  = (w', r) ->
  keeps_files w w'.
Proof.
  intros Hc H. unfold iteration in H.
  apply bind_inv in H as [(e & H & _) | (mov_exists & w1 & H1 & H)]; [discriminate|].
  injection H1 as <- _.
  apply bind_inv in H as [(e & H & _) | (xml_exists & w2 & H2 & H)].
  { destruct mov_exists; discriminate. }
  assert (w2 = w) as -> by (destruct mov_exists; now injection H2 as <- _).
  assert (Hbody : forall w3 r3,
    (if mov_exists && xml_exists then
       log_info "Found DolbyMaster.mov and DolbyMetadata.xml. Starting encoding process." ;;
       '(command, config0) ← construct_command sys_executable config
                               (PosixPath.str watch_path) (PosixPath.str output_path);
       ok ← run_encoding decode command (popen c);
       (if ok : bool then
          try_
            (shutil_move (move_raises c)
               (PosixPath.str (PosixPath.div watch_path "DolbyMaster.mov"))
               (PosixPath.str (PosixPath.div processed_path
                                 ("DolbyMaster_" +:+ strftime c +:+ ".mov"))) ;;
             shutil_move (move_raises c)
               (PosixPath.str (PosixPath.div watch_path "DolbyMetadata.xml"))
               (PosixPath.str (PosixPath.div processed_path
                                 ("DolbyMetadata_" +:+ strftime c +:+ ".xml"))) ;;
             log_info "Moved source files to 'processed' directory.")
            [ (is_Exception,
                fun e => error ("Failed to move processed files: " +:+ exn_str e)) ]
        else mret tt) ;;
       log_info ("Waiting for new files. Checking again in "
                 +:+ PyStr.of_Z (polling_interval args) +:+ " seconds.") ;;
       mret config0
     else mret config) w = (w3, r3) -> keeps_files w w3).
  { intros w3 r3 Hb. destruct (mov_exists && xml_exists).
    2:{ injection Hb as <- _. apply keeps_files_refl. }
    apply bind_inv in Hb as [(e & Hb & _) | ([] & w4 & Hb1 & Hb)];
      [now apply print_keeps_files in Hb|].
    apply print_keeps_files in Hb1.
    apply bind_inv in Hb as [(e & Hb & _) | ([command config0] & w5 & Hb2 & Hb)].
    { apply construct_command_keeps_files in Hb. eapply keeps_files_trans; eauto. }
    apply construct_command_keeps_files in Hb2.
    apply bind_inv in Hb as [(e & Hb & _) | (ok & w6 & Hb3 & Hb)].
    { apply run_encoding_keeps_files in Hb as [Hb _].
      eauto using keeps_files_trans. }
    apply run_encoding_keeps_files in Hb3 as [Hb3 Hok].
    destruct (Hok ok eq_refl) as (p & Hp & ->).
    rewrite (proj2 (Z.eqb_neq _ _) (Hc p Hp)) in Hb.
    apply bind_inv in Hb as [(e & Hb & _) | ([] & w7 & Hb4 & Hb)]; [discriminate|].
    injection Hb4 as <-.
    apply bind_inv in Hb as [(e & Hb & _) | ([] & w8 & Hb5 & Hb)];
      [apply print_keeps_files in Hb; eauto using keeps_files_trans|].
    apply print_keeps_files in Hb5. injection Hb as <- _.
    eauto using keeps_files_trans. }
  apply bind_inv in H as [(e & H & _) | (config1 & w3 & H3 & H)];
    [now apply Hbody in H|].
  apply Hbody in H3.
  apply bind_inv in H as [(e & H & _) | ([] & w4 & H4 & H)].
  - apply sleep_keeps_world in H. now subst.
  - apply sleep_keeps_world in H4. injection H as <- _. now subst.
Qed.

Lemma loop_keeps_files (sys_executable : string) (decode : list byte -> string)
    (args : Args) (watch_path output_path processed_path : PosixPath.PurePath)
    (cycles : list Cycle) (config : dict) (w w' : World) (r : result dict) :
  List.Forall no_successful_encode cycles ->
  loop sys_executable decode args watch_path output_path processed_path cycles config w
  = (w', r) ->
  keeps_files w w'.
Proof.
  intros Hcycles. revert config w.
  induction Hcycles as [|c cycles Hc _ IH]; intros config w H.
  - injection H as <- _. apply keeps_files_refl.
  - cbn [loop] in H.
    apply bind_inv in H as [(e & H & _) | (config1 & w1 & H1 & H)].
    + eapply iteration_keeps_files; eauto.
    + eapply keeps_files_trans; [eapply iteration_keeps_files; eauto | eauto].
Qed.

(** X8: as long as no encoder run ends with exit code 0, the loop
    removes no file and changes no directory, however it ends. *)
Theorem no_file_leaves_without_successful_encode
    (sys_executable : string) (decode : list byte -> string)
    (args : Args) (cycles : list Cycle) (config : dict) (w : World) :
  List.Forall no_successful_encode cycles ->
  let final := loop sys_executable decode args
                 (PosixPath.Path (watch_folder args)) (PosixPath.Path (output_folder args))
                 (PosixPath.Path (processed_folder args)) cycles config w in
  files w ⊆ files final.1 /\ dirs final.1 = dirs w.
Proof.
  intros Hcycles final. subst final.
  destruct (loop _ _ _ _ _ _ cycles config w) as [w' r] eqn:E.
  exact (loop_keeps_files _ _ _ _ _ _ _ _ _ _ _ Hcycles E).
Qed.

(** ** Start and stop of the watcher *)

(** [load_config] returns the parsed mapping and prints nothing;
    it ends the process with status 1 and one line naming the path when
    the file is missing or is not JSON; any other failure to open the
    file leaves it as the exception it is, without a line. *)
Lemma load_config_outcomes (path : string) (f : config_file) (w : World) :
  load_config path f w =
  match f with
  | Parsed d => (w, Ret d)
  | Missing =>
      (with_console w
         [Colors.RED +:+ "ERROR: "
          +:+ ("Configuration file not found at '" +:+ path +:+ "'") +:+ Colors.RESET],
       Raise (SystemExit 1))
  | Malformed =>
      (with_console w
         [Colors.RED +:+ "ERROR: "
          +:+ ("Invalid JSON in configuration file '" +:+ path +:+ "'") +:+ Colors.RESET],
       Raise (SystemExit 1))
  | Unreadable msg => (w, Raise (OtherException msg))
  end.
Proof. destruct f; reflexivity. Qed.

(** X9: when the watch folder is not a directory, [main] prints one
    line and exits with 1: no folder is made, the configuration is not
    read and the loop is not entered. *)
Theorem main_without_watch_folder
    (sys_executable : string) (decode : list byte -> string)
    (args : Args) (startup : Startup) (cycles : list Cycle) (w : World) :
  path_is_dir w (PosixPath.Path (watch_folder args)) = false ->
  main sys_executable decode args startup cycles w
  = (with_console w
       [Colors.RED +:+ "ERROR: "
        +:+ ("Watch folder '" +:+ PosixPath.str (PosixPath.Path (watch_folder args))
             +:+ "' does not exist or is not a directory.") +:+ Colors.RESET],
     Raise (SystemExit 1)).
Proof.
  intros H. unfold main, mbind, M_bind, bind, is_dir. rewrite H. reflexivity.
Qed.

(** X10: with the three folders in place and a readable configuration,
    Ctrl+C during the sleep of a turn that follows any number of idle
    turns ends the process with status 0; the console shows the two
    start lines and the stop line, and nothing else has changed. *)
Theorem interrupt_while_idle_exits_zero
    (sys_executable : string) (decode : list byte -> string)
    (args : Args) (startup : Startup) (idle : list Cycle) (c : Cycle) (rest : list Cycle)
    (config : dict) (w : World) :
  path_is_dir w (PosixPath.Path (watch_folder args)) = true ->
  path_is_dir w (PosixPath.Path (output_folder args)) = true ->
  path_is_dir w (PosixPath.Path (processed_folder args)) = true ->
  config_read startup = Parsed config ->
  pair_detected args w = false ->
  (0 <= polling_interval args)%Z ->
  List.Forall (fun c => sleep_interrupted c = false) idle ->
  sleep_interrupted c = true ->
  main sys_executable decode args startup (idle ++ c :: rest) w
  = (with_console w
       [Colors.BLUE +:+ "INFO: "
        +:+ ("Watching folder: " +:+ PosixPath.str (PosixPath.Path (watch_folder args)))
        +:+ Colors.RESET;
        Colors.BLUE +:+ "INFO: "
        +:+ ("Polling every " +:+ PyStr.of_Z (polling_interval args)
             +:+ " seconds. Press Ctrl+C to stop.") +:+ Colors.RESET;
        Colors.BLUE +:+ "INFO: " +:+ (lf +:+ "Watcher stopped by user.") +:+ Colors.RESET],
     Raise (SystemExit 0)).
Proof.
  intros Hw Ho Hp Hcfg Hpair Hsecs Hidle Hc.
  unfold main, mbind, M_bind, bind, is_dir.
  rewrite Hw. cbn [negb mret M_ret ret].
  rewrite Ho. cbn [negb mret M_ret ret].
  rewrite Hp. cbn [negb mret M_ret ret].
  rewrite Hcfg. cbn [load_config try_ json_load mret M_ret ret].
  unfold log_info at 1 2. unfold print at 1 2. cbn [files dirs console].
  unfold try_.
  rewrite loop_skips_idle_turns by assumption.
  cbn [loop]. unfold mbind, M_bind, bind.
  fold (turn sys_executable decode args c config).
  rewrite idle_turn by assumption.
  unfold sleep, mbind, M_bind, bind. rewrite Hc.
  destruct (Z.ltb_spec (polling_interval args) 0); [lia|].
  cbn. unfold with_console. cbn. rewrite <- !app_assoc. reflexivity.
Qed.

(** ** White space at the end of a line *)

Lemma lower_char_space (c : ascii) : PyStr.is_space (PyStr.lower_char c) = PyStr.is_space c.
Proof. destruct c as [[] [] [] [] [] [] [] []]; reflexivity. Qed.

Lemma all_space_lower (t : string) : all_space (PyStr.lower t) = all_space t.
Proof.
  induction t as [|c t IH]; [reflexivity|].
  cbn [PyStr.lower all_space]. now rewrite lower_char_space, IH.
Qed.

Lemma rstrip_split (s : string) :
  exists t, s = PyStr.rstrip s +:+ t /\ all_space t = true.
Proof.
  induction s as [|c s (t & Hs & Ht)].
  - now exists EmptyString.
  - cbn [PyStr.rstrip]. destruct (PyStr.rstrip s) as [|d r] eqn:E.
    + cbn [String.append] in Hs. subst t.
      destruct (PyStr.is_space c) eqn:Hc.
      * exists (String c s). split; [reflexivity|]. cbn [all_space]. now rewrite Hc, Ht.
      * exists s. now split.
    + exists t. split; [|exact Ht].
      change (String c s = String c (String d r +:+ t)). now f_equal.
Qed.

Lemma prefix_before_space (word b t : string) :
  no_space word = true -> all_space t = true ->
  String.prefix word (b +:+ t) = String.prefix word b.
Proof.
  revert b. induction word as [|x word IH]; intros b Hw Ht.
  - now rewrite !prefix_nil.
  - cbn [no_space] in Hw. apply andb_true_iff in Hw as [Hx Hw].
    destruct b as [|y b]; cbn [String.append String.prefix].
    + destruct t as [|c t]; [reflexivity|].
      cbn [all_space] in Ht. apply andb_true_iff in Ht as [Hc _].
      cbn [String.prefix]. destruct (Ascii.ascii_dec x c) as [->|]; [|reflexivity].
      rewrite Hc in Hx. discriminate.
    + destruct (Ascii.ascii_dec x y); [now apply IH | reflexivity].
Qed.

Lemma contains_in_space (x : ascii) (word t : string) :
  no_space (String x word) = true -> all_space t = true ->
  PyStr.contains (String x word) t = false.
Proof.
  intros Hw. cbn [no_space] in Hw. apply andb_true_iff in Hw as [Hx _].
  induction t as [|c t IH]; intros Ht; [reflexivity|].
  cbn [all_space] in Ht. apply andb_true_iff in Ht as [Hc Ht].
  cbn [PyStr.contains String.prefix]. rewrite (IH Ht).
  destruct (Ascii.ascii_dec x c) as [->|]; [|reflexivity].
  rewrite Hc in Hx. discriminate.
Qed.

Lemma contains_before_space (x : ascii) (word a t : string) :
  no_space (String x word) = true -> all_space t = true ->
  PyStr.contains (String x word) (a +:+ t) = PyStr.contains (String x word) a.
Proof.
  intros Hw Ht. induction a as [|c a IH].
  - cbn [String.append]. now rewrite contains_in_space.
  - change (String c a +:+ t) with (String c (a +:+ t)).
    cbn [PyStr.contains]. rewrite IH.
    change (String c (a +:+ t)) with (String c a +:+ t).
    now rewrite prefix_before_space.
Qed.

(** X11: the class of a line does not depend on the white space at its
    end: the line as decoded and the line as printed, stripped on the
    right, have the same class. *)
Theorem class_ignores_trailing_white_space (line_str : string) :
  classify (PyStr.rstrip line_str) = classify line_str.
Proof.
  destruct (rstrip_split line_str) as (t & Hs & Ht).
  remember (PyStr.rstrip line_str) as r eqn:Hr. clear Hr. subst line_str.
  unfold classify. rewrite lower_append.
  rewrite !contains_before_space by (reflexivity || now rewrite all_space_lower).
  reflexivity.
Qed.

(** ** The folders at the start *)

Lemma str_in_with_parents (p : PosixPath.PurePath) :
  PosixPath.segs p <> [] -> PosixPath.str p ∈ with_parents p.
Proof.
  intros Hne. unfold with_parents. apply list_elem_of_fmap.
  exists (length (PosixPath.segs p)). split.
  - rewrite firstn_all. now destruct p.
  - apply elem_of_seq. destruct (PosixPath.segs p); [congruence | simpl; lia].
Qed.

Lemma mkdir_makes_dir (raises : string -> option string) (p : PosixPath.PurePath)
    (w : World) :
  raises (PosixPath.str p) = None ->
  PosixPath.segs p <> [] ->
  exists w', mkdir raises p w = (w', Ret tt)
             /\ files w' = files w /\ console w' = console w
             /\ dirs w ⊆ dirs w' /\ PosixPath.str p ∈ dirs w'.
Proof.
  intros Hr Hne. unfold mkdir. rewrite Hr. eexists. split; [reflexivity|].
  cbn [files dirs console]. repeat split; [set_solver|].
  apply elem_of_union_r, elem_of_list_to_set. now apply str_in_with_parents.
Qed.

(** X12: when the watch folder is a directory, no folder fails to be
    made and the configuration parses, [main] reaches its loop with the
    output folder and the processed folder as directories, made if they
    were not there, and with every file as it was. *)
Theorem main_enters_loop_with_folders
    (sys_executable : string) (decode : list byte -> string)
    (args : Args) (startup : Startup) (config : dict) (w : World) :
  path_is_dir w (PosixPath.Path (watch_folder args)) = true ->
  (forall name, mkdir_raises startup name = None) ->
  config_read startup = Parsed config ->
  PosixPath.segs (PosixPath.Path (output_folder args)) <> [] ->
  PosixPath.segs (PosixPath.Path (processed_folder args)) <> [] ->
  exists w',
    main sys_executable decode args startup [] w = (w', Ret tt)
    /\ files w' = files w
    /\ dirs w ⊆ dirs w'
    /\ path_is_dir w' (PosixPath.Path (output_folder args)) = true
    /\ path_is_dir w' (PosixPath.Path (processed_folder args)) = true.
Proof.
  intros Hw Hmk Hcfg Hso Hsp.
  pose proof (str_in_with_parents _ Hso) as Hino.
  pose proof (str_in_with_parents _ Hsp) as Hinp.
  unfold main, mbind, M_bind, bind, is_dir.
  rewrite Hw. cbn [negb mret M_ret ret].
  destruct (path_is_dir w (PosixPath.Path (output_folder args))) eqn:Ho;
    cbn [negb mret M_ret ret]; unfold log_info at 1, print at 1, mkdir at 1;
    rewrite ?Hmk; cbn [files dirs console];
    match goal with
    | |- context [path_is_dir ?w1 (PosixPath.Path (processed_folder args))] =>
        destruct (path_is_dir w1 (PosixPath.Path (processed_folder args))) eqn:Hp
    end;
    cbn [negb mret M_ret ret]; unfold log_info, print, mkdir;
    rewrite ?Hmk, Hcfg; cbn [files dirs console];
    (eexists; split; [reflexivity|]); cbn [files dirs];
    unfold path_is_dir in *; cbn [files dirs] in *;
    rewrite ?bool_decide_eq_true in *;
    repeat split; set_solver.
Qed.

(** ** The encoder cannot be started *)

(** X13: when [Popen] raises an exception, [run_encoding] does not
    return a flag: it prints the command line and one error line and
    ends the process with status 1, with every file and directory as it
    was. *)
Theorem launch_failure_ends_the_process
    (decode : list byte -> string) (command : list string)
    (behaviour : popen_behaviour) (w : World) :
  command <> [] ->
  (forall p, behaviour <> Runs p) ->
  behaviour <> Interrupted ->
  exists line,
    run_encoding decode command behaviour w
    = (with_console w
         [Colors.BLUE +:+ "INFO: " +:+ ("Running command: " +:+ PyStr.join " " command)
          +:+ Colors.RESET;
          Colors.RED +:+ "ERROR: " +:+ line +:+ Colors.RESET],
       Raise (SystemExit 1)).
Proof.
  intros Hcommand Hruns Hint.
  destruct behaviour as [p|msg|msg|]; [now destruct (Hruns p) | | | now destruct Hint].
  - destruct command as [|c0 command]; [now destruct Hcommand|].
    exists ("Could not execute command. Make sure '" +:+ c0 +:+ "' is correct.").
    unfold run_encoding.
    generalize (PyStr.join " " (c0 :: command)). intros command_str.
    unfold with_console, log_info, error, print, try_, mbind, M_bind, bind.
    cbn [Popen raise dispatch is_FileNotFoundError is_Exception files dirs console
         fst snd].
    now rewrite <- app_assoc.
  - exists ("An unexpected error occurred while running the encoder: " +:+ msg).
    unfold run_encoding.
    generalize (PyStr.join " " command). intros command_str.
    unfold with_console, log_info, error, print, try_, mbind, M_bind, bind.
    cbn [Popen raise dispatch is_FileNotFoundError is_Exception files dirs console
         fst snd exn_str].
    now rewrite <- app_assoc.
Qed.

(** ** The further properties at the sample inputs *)

Lemma command_names_the_detected_inputs_witness :
  dict_get encoder_script_path Sample.config
  = Some (VStr "/opt/dv/encode_dvmezz_to_dv7.py")
  /\ exists front,
       (construct_command Sample.python Sample.config
          (PosixPath.str (PosixPath.Path (watch_folder Sample.args)))
          (PosixPath.str (PosixPath.Path (output_folder Sample.args))) Sample.world).2
       = Ret (front
              ++ ["--input"; PyStr.quoted (input_mov Sample.args);
                  "--input-metadata"; PyStr.quoted (input_xml Sample.args)]
              ++ ["--output-bl";
                  PyStr.quoted (PosixPath.str
                    (PosixPath.div (PosixPath.Path (output_folder Sample.args))
                       (PosixPath.name (PosixPath.Path (watch_folder Sample.args))
                        +:+ "_bl.h265")));
                  "--output-el";
                  PyStr.quoted (PosixPath.str
                    (PosixPath.div (PosixPath.Path (output_folder Sample.args))
                       (PosixPath.name (PosixPath.Path (watch_folder Sample.args))
                        +:+ "_el.h265")))],
              dict_remove encoder_script_path Sample.config).
Proof.
  split; [reflexivity|].
  apply (command_names_the_detected_inputs Sample.python Sample.args Sample.config
           "/opt/dv/encode_dvmezz_to_dv7.py" Sample.world).
  reflexivity.
Defined.

Lemma loop_idles_until_both_inputs_exist_witness :
  pair_detected Sample.args Sample.empty_watch = false
  /\ loop Sample.python Sample.decode Sample.args
       (PosixPath.Path (watch_folder Sample.args))
       (PosixPath.Path (output_folder Sample.args))
       (PosixPath.Path (processed_folder Sample.args))
       [Sample.ok_cycle; Sample.failing_cycle] Sample.config Sample.empty_watch
     = (Sample.empty_watch, Ret Sample.config).
Proof.
  split; [vm_compute; reflexivity|].
  apply (loop_idles_until_both_inputs_exist Sample.python Sample.decode Sample.args
           [Sample.ok_cycle; Sample.failing_cycle] Sample.config Sample.empty_watch).
  - vm_compute. reflexivity.
  - cbn. lia.
  - repeat constructor.
Defined.

Lemma successful_turn_archives_both_inputs_witness :
  inputs_in_place Sample.args Sample.world
  /\ popen Sample.ok_cycle = Runs Sample.encoder_ok
  /\ returncode Sample.encoder_ok = 0%Z
  /\ exists w',
       turn Sample.python Sample.decode Sample.args Sample.ok_cycle Sample.config
         Sample.world
       = (w', Ret (dict_remove encoder_script_path Sample.config))
       /\ dirs w' = dirs Sample.world
       /\ (archived_xml Sample.args "20250101-120000" ∈ files w')
       /\ (archived_mov Sample.args "20250101-120000" ∈ files w')
       /\ (input_xml Sample.args ∉ files w')
       /\ (input_mov Sample.args ∉ files w').
Proof.
  split; [exact sample_inputs_in_place|].
  split; [reflexivity | split; [reflexivity|]].
  destruct (successful_turn_archives_both_inputs Sample.python Sample.decode
              Sample.args Sample.ok_cycle Sample.config
              "/opt/dv/encode_dvmezz_to_dv7.py" Sample.encoder_ok Sample.world
              sample_inputs_in_place eq_refl eq_refl eq_refl eq_refl eq_refl
              ltac:(cbn; lia) eq_refl)
    as (w' & Hturn & _ & Hdirs & Hxml & Hmov & Hnoxml & Hnomov).
  exists w'. split; [exact Hturn|].
  split; [exact Hdirs|].
  split; [exact Hxml|].
  split; [apply Hmov; vm_compute; discriminate|].
  split; [apply Hnoxml; vm_compute; discriminate|].
  apply Hnomov; vm_compute; discriminate.
Defined.

Lemma failed_encode_then_next_detection_exits_witness :
  dict_wf Sample.config
  /\ inputs_in_place Sample.args Sample.world
  /\ popen Sample.failing_cycle = Runs Sample.encoder_failed
  /\ returncode Sample.encoder_failed <> 0%Z
  /\ exists w1,
       turn Sample.python Sample.decode Sample.args Sample.failing_cycle Sample.config
         Sample.world
       = (w1, Ret (dict_remove encoder_script_path Sample.config))
       /\ files w1 = files Sample.world ∪ creates Sample.encoder_failed
       /\ dirs w1 = dirs Sample.world
       /\ inputs_in_place Sample.args w1
       /\ forall next,
            exists w2,
              turn Sample.python Sample.decode Sample.args next
                (dict_remove encoder_script_path Sample.config) w1
              = (w2, Raise (SystemExit 1))
              /\ files w2 = files w1 /\ dirs w2 = dirs w1.
Proof.
  split; [exact sample_config_wf|].
  split; [exact sample_inputs_in_place|].
  split; [reflexivity|].
  split; [vm_compute; discriminate|].
  apply (failed_encode_then_next_detection_exits Sample.python Sample.decode
           Sample.args Sample.failing_cycle Sample.config
           "/opt/dv/encode_dvmezz_to_dv7.py" Sample.encoder_failed Sample.world).
  - exact sample_config_wf.
  - reflexivity.
  - exact sample_inputs_in_place.
  - reflexivity.
  - vm_compute. discriminate.
  - cbn. lia.
  - reflexivity.
Defined.

Lemma no_file_leaves_without_successful_encode_witness :
  List.Forall no_successful_encode [Sample.failing_cycle; Sample.interrupted_cycle]
  /\ (let final := loop Sample.python Sample.decode Sample.args
                     (PosixPath.Path (watch_folder Sample.args))
                     (PosixPath.Path (output_folder Sample.args))
                     (PosixPath.Path (processed_folder Sample.args))
                     [Sample.failing_cycle; Sample.interrupted_cycle]
                     Sample.config Sample.world in
      files Sample.world ⊆ files final.1 /\ dirs final.1 = dirs Sample.world).
Proof.
  assert (H : List.Forall no_successful_encode
                [Sample.failing_cycle; Sample.interrupted_cycle]).
  { repeat constructor; intros p Hp; cbn in Hp.
    - injection Hp as <-. vm_compute. discriminate.
    - discriminate Hp. }
  split; [exact H|].
  exact (no_file_leaves_without_successful_encode Sample.python Sample.decode
           Sample.args [Sample.failing_cycle; Sample.interrupted_cycle]
           Sample.config Sample.world H).
Defined.

Lemma main_without_watch_folder_witness :
  path_is_dir Sample.no_folders (PosixPath.Path (watch_folder Sample.args)) = false
  /\ main Sample.python Sample.decode Sample.args (Sample.startup Sample.config)
       [Sample.ok_cycle] Sample.no_folders
     = (with_console Sample.no_folders
          [Colors.RED +:+ "ERROR: "
           +:+ ("Watch folder '"
                +:+ PosixPath.str (PosixPath.Path (watch_folder Sample.args))
                +:+ "' does not exist or is not a directory.") +:+ Colors.RESET],
        Raise (SystemExit 1)).
Proof.
  split; [vm_compute; reflexivity|].
  apply (main_without_watch_folder Sample.python Sample.decode Sample.args
           (Sample.startup Sample.config) [Sample.ok_cycle] Sample.no_folders).
  vm_compute. reflexivity.
Defined.

Lemma interrupt_while_idle_exits_zero_witness :
  pair_detected Sample.args Sample.empty_watch = false
  /\ sleep_interrupted Sample.interrupted_cycle = true
  /\ main Sample.python Sample.decode Sample.args (Sample.startup Sample.config)
       ([Sample.ok_cycle; Sample.failing_cycle] ++ Sample.interrupted_cycle :: [Sample.ok_cycle])
       Sample.empty_watch
     = (with_console Sample.empty_watch
          [Colors.BLUE +:+ "INFO: "
           +:+ ("Watching folder: "
                +:+ PosixPath.str (PosixPath.Path (watch_folder Sample.args)))
           +:+ Colors.RESET;
           Colors.BLUE +:+ "INFO: "
           +:+ ("Polling every " +:+ PyStr.of_Z (polling_interval Sample.args)
                +:+ " seconds. Press Ctrl+C to stop.") +:+ Colors.RESET;
           Colors.BLUE +:+ "INFO: " +:+ (lf +:+ "Watcher stopped by user.")
           +:+ Colors.RESET],
        Raise (SystemExit 0)).
Proof.
  split; [vm_compute; reflexivity | split; [reflexivity|]].
  apply (interrupt_while_idle_exits_zero Sample.python Sample.decode Sample.args
           (Sample.startup Sample.config) [Sample.ok_cycle; Sample.failing_cycle]
           Sample.interrupted_cycle [Sample.ok_cycle] Sample.config Sample.empty_watch).
  - vm_compute. reflexivity.
  - vm_compute. reflexivity.
  - vm_compute. reflexivity.
  - reflexivity.
  - vm_compute. reflexivity.
  - cbn. lia.
  - repeat constructor.
  - reflexivity.
Defined.

Lemma main_enters_loop_with_folders_witness :
  path_is_dir Sample.watch_only (PosixPath.Path (watch_folder Sample.args)) = true
  /\ path_is_dir Sample.watch_only (PosixPath.Path (output_folder Sample.args)) = false
  /\ path_is_dir Sample.watch_only (PosixPath.Path (processed_folder Sample.args)) = false
  /\ exists w',
       main Sample.python Sample.decode Sample.args (Sample.startup Sample.config) []
         Sample.watch_only
       = (w', Ret tt)
       /\ files w' = files Sample.watch_only
       /\ dirs Sample.watch_only ⊆ dirs w'
       /\ path_is_dir w' (PosixPath.Path (output_folder Sample.args)) = true
       /\ path_is_dir w' (PosixPath.Path (processed_folder Sample.args)) = true.
Proof.
  split; [vm_compute; reflexivity|].
  split; [vm_compute; reflexivity|].
  split; [vm_compute; reflexivity|].
  apply (main_enters_loop_with_folders Sample.python Sample.decode Sample.args
           (Sample.startup Sample.config) Sample.config Sample.watch_only).
  - vm_compute. reflexivity.
  - intros name. reflexivity.
  - reflexivity.
  - vm_compute. discriminate.
  - vm_compute. discriminate.
Defined.

Lemma launch_failure_ends_the_process_witness :
  exists line,
    run_encoding Sample.decode ["python"; "encode.py"]
      (NotFound "[Errno 2] No such file or directory") Sample.world
    = (with_console Sample.world
         [Colors.BLUE +:+ "INFO: "
          +:+ ("Running command: " +:+ PyStr.join " " ["python"; "encode.py"])
          +:+ Colors.RESET;
          Colors.RED +:+ "ERROR: " +:+ line +:+ Colors.RESET],
       Raise (SystemExit 1)).
Proof.
  apply (launch_failure_ends_the_process Sample.decode ["python"; "encode.py"]
           (NotFound "[Errno 2] No such file or directory") Sample.world);
    [discriminate | discriminate | discriminate].
Defined.

(** * The program on a host that can refuse *)

(** ** Exit codes from the command line on *)





(** ** The command, when the existence test can raise *)

(** Where the existence test answers, the loop over the items is the
    one of the calm host. *)
Lemma host_quote_value (h : Host) (k : string) (v : value) (w : World) :
  test_returns h (k, v) -> OnHost.quote_value h v w = quote_value v w.
Proof.
  unfold test_returns, has_separator. cbn [snd].
  destruct v as [| b | z | r | s]; try reflexivity.
  intros H. unfold OnHost.quote_value, quote_value.
  destruct (PyStr.contains "\" s || PyStr.contains "/" s); [|reflexivity].
  unfold mbind, M_bind, bind, OnHost.exists_, exists_. now rewrite H.
Qed.

Lemma host_add_arguments (h : Host) (items : dict) (command : list string) (w : World) :
  existence_tests_return h items ->
  OnHost.add_arguments h items command w = add_arguments items command w.
Proof.
  intros H. revert command. induction H as [|[k v] items Hv Hitems IH]; intros command.
  - reflexivity.
  - cbn [OnHost.add_arguments add_arguments]. unfold mbind, M_bind, bind.
    rewrite (host_quote_value h k v w Hv).
    destruct (quote_value_spec v w) as (v' & -> & _ & _). apply IH.
Qed.

Lemma host_construct_command (h : Host) (sys_executable : string) (config : dict)
    (watch output script : string) (w : World) :
  dict_get encoder_script_path config = Some (VStr script) ->
  existence_tests_return h (dict_remove encoder_script_path config) ->
  OnHost.construct_command h sys_executable config watch output w
  = construct_command sys_executable config watch output w.
Proof.
  intros Hget Htests. unfold OnHost.construct_command, construct_command.
  rewrite (dict_get_contains _ _ _ Hget), Hget. cbn [negb].
  unfold mbind, M_bind, bind, mret, M_ret, ret.
  now rewrite (host_add_arguments h _ _ w Htests).
Qed.

(** The first existence test that raises ends the loop over the items,
    and the call with it. *)
Lemma host_add_arguments_raises (h : Host) (before after : dict) (key s msg : string)
    (command : list string) (w : World) :
  existence_tests_return h before ->
  has_separator s = true ->
  stat_error h (PosixPath.str (PosixPath.Path s)) = Some msg ->
  OnHost.add_arguments h (before ++ (key, VStr s) :: after) command w
  = (w, Raise (OtherException msg)).
Proof.
  intros H Hsep Hstat. revert command.
  induction H as [|[k v] items Hv Hitems IH]; intros command.
  - cbn [app OnHost.add_arguments]. unfold mbind, M_bind, bind, OnHost.quote_value.
    unfold has_separator in Hsep. rewrite Hsep.
    unfold mbind, M_bind, bind, OnHost.exists_. now rewrite Hstat.
  - cbn [app OnHost.add_arguments]. unfold mbind, M_bind, bind.
    rewrite (host_quote_value h k v w Hv).
    destruct (quote_value_spec v w) as (v' & -> & _ & _). apply IH.
Qed.

(** What the calm loop emits is what the words of the rule give. *)
Lemma flag_token_emitted (w : World) (v : value) :
  v <> VNone -> emitted w v (flag_token w v).
Proof.
  destruct v as [| [] | z | r | s]; intros Hv; try constructor; [congruence|].
  unfold flag_token.
  destruct (has_separator s) eqn:Hsep; cbn [andb].
  - destruct (path_exists w (PosixPath.Path s)) eqn:He; cbn [orb].
    + apply emitted_quoted; [exact Hsep | now left].
    + destruct (PyStr.contains "temp" s) eqn:Ht.
      * apply emitted_quoted; [exact Hsep | right; now apply contains_spec].
      * apply emitted_bare. intros [_ [H | H]]; [congruence|].
        apply contains_spec in H. congruence.
  - apply emitted_bare. intros [H _]. congruence.
Qed.

Lemma flag_pairs_pairs_for (w : World) (items : dict) :
  pairs_for w items (flag_pairs w items).
Proof.
  induction items as [|[k v] items IH]; [constructor|].
  rewrite flag_pairs_cons. destruct v as [| b | z | r | s]; cbn [is_None app];
    try (apply pairs_value; [discriminate | apply flag_token_emitted; discriminate | exact IH]).
  now apply pairs_null.
Qed.

Lemma pairs_for_length (w : World) (items : dict) (tokens : list string) :
  pairs_for w items tokens ->
  length tokens = 2 * length (List.filter has_value items).
Proof.
  induction 1 as [| key items tokens _ IH | key v token items tokens Hv _ _ IH].
  - reflexivity.
  - exact IH.
  - cbn [List.filter]. unfold has_value at 1. cbn [snd].
    destruct v; [congruence | | | |]; cbn [length]; lia.
Qed.

(** C6: where the existence tests answer, the command holds, between
    its three leading and its eight trailing tokens, [--key] and one
    value for each key other than the reserved one whose value is not
    null, in the order of the mapping, and nothing for a key whose value
    is null. *)
Theorem one_flag_pair_per_non_null_key
    (h : Host) (sys_executable : string) (config : dict) (watch output script : string)
    (w : World) :
  dict_wf config ->
  dict_get encoder_script_path config = Some (VStr script) ->
  let additional := List.filter (other_key encoder_script_path) config in
  existence_tests_return h additional ->
  exists prefix pairs suffix,
    OnHost.construct_command h sys_executable config watch output w
    = (w, Ret (prefix ++ pairs ++ suffix, additional))
    /\ length prefix = 3 /\ length suffix = 8
    /\ pairs_for w additional pairs
    /\ length pairs = 2 * length (List.filter has_value additional).
Proof.
  intros Hwf Hget additional Htests. subst additional.
  rewrite <- (dict_remove_filter _ _ Hwf) in *.
  rewrite (host_construct_command h _ _ _ _ _ w Hget Htests).
  rewrite (construct_command_spec _ _ _ _ _ _ Hget).
  eexists [_; _; _], _, [_; _; _; _; _; _; _; _].
  split; [reflexivity | split; [reflexivity | split; [reflexivity|]]].
  pose proof (flag_pairs_pairs_for w (dict_remove encoder_script_path config)) as Hpairs.
  split; [exact Hpairs | exact (pairs_for_length _ _ _ Hpairs)].
Qed.


Lemma sample_tests_return :
  existence_tests_return Sample.ascii_host
    (List.filter (other_key encoder_script_path) Sample.config).
Proof. repeat constructor; intros _; reflexivity. Defined.

Lemma one_flag_pair_per_non_null_key_witness :
  dict_wf Sample.config
  /\ dict_get encoder_script_path Sample.config
     = Some (VStr "/opt/dv/encode_dvmezz_to_dv7.py")
  /\ existence_tests_return Sample.ascii_host
       (List.filter (other_key encoder_script_path) Sample.config)
  /\ OnHost.construct_command Sample.ascii_host Sample.python Sample.config
       "/mnt/in/reel1" "/mnt/out" Sample.world
     = (Sample.world,
        Ret ([PyStr.quoted "/usr/bin/python3"; "-u";
              PyStr.quoted "/opt/dv/encode_dvmezz_to_dv7.py";
              "--preset"; "slow";
              "--temp-dir"; PyStr.quoted "/scratch/temp/job";
              "--lut"; "/opt/dv/missing.cube";
              "--crf"; "18";
              "--fast"; "True";
              "--input"; PyStr.quoted "/mnt/in/reel1/DolbyMaster.mov";
              "--input-metadata"; PyStr.quoted "/mnt/in/reel1/DolbyMetadata.xml";
              "--output-bl"; PyStr.quoted "/mnt/out/reel1_bl.h265";
              "--output-el"; PyStr.quoted "/mnt/out/reel1_el.h265"],
             [("preset", VStr "slow"); ("temp-dir", VStr "/scratch/temp/job");
              ("lut", VStr "/opt/dv/missing.cube"); ("crf", VInt 18); ("note", VNone);
              ("fast", VBool true)]))
  /\ exists prefix pairs suffix,
       OnHost.construct_command Sample.ascii_host Sample.python Sample.config
         "/mnt/in/reel1" "/mnt/out" Sample.world
       = (Sample.world,
          Ret (prefix ++ pairs ++ suffix,
               List.filter (other_key encoder_script_path) Sample.config))
       /\ length prefix = 3 /\ length suffix = 8
       /\ pairs_for Sample.world
            (List.filter (other_key encoder_script_path) Sample.config) pairs
       /\ length pairs
          = 2 * length (List.filter has_value
                          (List.filter (other_key encoder_script_path) Sample.config)).
Proof.
  split; [exact sample_config_wf|].
  split; [reflexivity|].
  split; [exact sample_tests_return|].
  split; [reflexivity|].
  apply (one_flag_pair_per_non_null_key Sample.ascii_host Sample.python Sample.config
           "/mnt/in/reel1" "/mnt/out" "/opt/dv/encode_dvmezz_to_dv7.py" Sample.world);
    [exact sample_config_wf | reflexivity | exact sample_tests_return].
Defined.


(** ** The streaming loop, when print can raise *)

Lemma printed_all (h : Host) (lines : list string) :
  List.Forall (console_accepts h) lines ->
  printed_until_refusal h lines = (lines, None).
Proof.
  induction 1 as [|line lines Hline _ IH]; [reflexivity|].
  cbn [printed_until_refusal]. unfold console_accepts in Hline. now rewrite Hline, IH.
Qed.

Lemma printed_length (h : Host) (lines : list string) :
  match (printed_until_refusal h lines).2 with
  | None => (printed_until_refusal h lines).1 = lines
  | Some _ => length (printed_until_refusal h lines).1 < length lines
  end.
Proof.
  induction lines as [|line lines IH]; [reflexivity|].
  cbn [printed_until_refusal].
  destruct (encode_error h line); [cbn; lia|].
  destruct (printed_until_refusal h lines) as [shown_lines [msg|]]; cbn in *.
  - lia.
  - now rewrite IH.
Qed.

Lemma host_stream_chunk_newline (h : Host) (decode : list byte -> string)
    (buf : list byte) (w : World) :
  bytes_contains newline buf = false ->
  OnHost.stream_chunk h decode buf newline w
  = match encode_error h (shown decode buf) with
    | Some msg => (w, Raise (OtherException msg))
    | None => (with_console w [shown decode buf], Ret [])
    end.
Proof.
  intros H. unfold OnHost.stream_chunk.
  rewrite bytes_contains_app, H.
  change (bytes_contains newline [newline]) with true. cbn [orb].
  rewrite (bytes_split_at_sep newline buf [] H). cbn [List.hd].
  rewrite drop_ge by (rewrite length_app; simpl; lia).
  unfold mbind, M_bind, bind, OnHost.print, shown.
  now destruct (encode_error h _).
Qed.

Lemma host_stream_chunk_other (h : Host) (decode : list byte -> string)
    (buf : list byte) (c : byte) (w : World) :
  bytes_contains newline buf = false -> Byte.eqb newline c = false ->
  OnHost.stream_chunk h decode buf c w = (w, Ret (buf ++ [c])).
Proof.
  intros H Hc. unfold OnHost.stream_chunk.
  rewrite bytes_contains_app, H. simpl. now rewrite Hc.
Qed.

(** The loop prints the complete lines in order up to the first one the
    console cannot encode; it ends there with the error, or after the
    last byte with the partial line in its buffer. *)
Lemma host_stream_spec (h : Host) (decode : list byte -> string)
    (out buf : list byte) (w : World) :
  bytes_contains newline buf = false ->
  OnHost.stream h decode out buf w =
    (with_console w
       (printed_until_refusal h (map (shown decode) (complete_lines (buf ++ out)))).1,
     match (printed_until_refusal h (map (shown decode) (complete_lines (buf ++ out)))).2 with
     | None => Ret (partial_line (buf ++ out))
     | Some msg => Raise (OtherException msg)
     end).
Proof.
  revert buf w. induction out as [|c out IH]; intros buf w Hbuf.
  - rewrite app_nil_r. unfold complete_lines, partial_line.
    rewrite (bytes_split_free _ _ Hbuf). simpl. now rewrite with_console_nil.
  - cbn [OnHost.stream]. unfold mbind, M_bind, bind.
    destruct (Byte.eqb newline c) eqn:E.
    + apply Byte.byte_dec_bl in E. subst c.
      rewrite (host_stream_chunk_newline h decode buf w Hbuf).
      unfold complete_lines, partial_line.
      rewrite (bytes_split_at_sep newline buf out Hbuf).
      rewrite removelast_cons_split, last_cons_split.
      cbn [map printed_until_refusal].
      destruct (encode_error h (shown decode buf)) as [msg|].
      * cbn [fst snd]. now rewrite with_console_nil.
      * rewrite (IH [] _ eq_refl). cbn [app].
        unfold complete_lines, partial_line.
        destruct (printed_until_refusal h _) as [shown_lines refusal].
        cbn [fst snd]. now rewrite with_console_app.
    + rewrite (host_stream_chunk_other h decode buf c w Hbuf E).
      rewrite IH.
      * now rewrite <- app_assoc.
      * rewrite bytes_contains_app, Hbuf. simpl. now rewrite E.
Qed.

Lemma complete_lines_length (out : list byte) :
  length (complete_lines out) = count_newlines out.
Proof.
  unfold complete_lines. rewrite removelast_length, bytes_split_length. lia.
Qed.

(** X4: the streaming loop never prints more lines than the child's
    output has line feeds; it prints exactly one line per line feed
    when it ends with the stream, which it does when the console can
    encode every line, and fewer when a print raises; the buffer it
    ends with holds no line feed. *)
Theorem one_printed_line_per_line_feed
    (h : Host) (decode : list byte -> string) (out : list byte) (w : World) :
  exists lines r,
    OnHost.stream h decode out [] w = (with_console w lines, r)
    /\ length lines <= count_newlines out
    /\ (forall rest, r = Ret rest ->
          length lines = count_newlines out /\ bytes_contains newline rest = false)
    /\ (forall e, r = Raise e -> length lines < count_newlines out)
    /\ (List.Forall (console_accepts h) (map (shown decode) (complete_lines out)) ->
        exists rest, r = Ret rest).
Proof.
  rewrite (host_stream_spec h decode out [] w eq_refl). cbn [app].
  pose proof (printed_length h (map (shown decode) (complete_lines out))) as Hlen.
  pose proof (complete_lines_length out) as Hcount.
  eexists _, _. split; [reflexivity|].
  destruct (printed_until_refusal h _) as [lines [msg|]] eqn:E; cbn [fst snd] in *.
  - rewrite length_map in Hlen.
    split; [lia | split; [discriminate | split; [intros; lia|]]].
    intros Hall. rewrite (printed_all _ _ Hall) in E. discriminate.
  - subst lines. rewrite length_map.
    split; [lia | split; [|split; [discriminate | intros _; eauto]]].
    intros rest [= <-]. split; [lia | apply partial_line_free].
Qed.

Lemma one_printed_line_per_line_feed_witness :
  List.Forall (console_accepts Sample.ascii_host)
    (map (shown Sample.ascii_decode) (complete_lines (Sample.body ++ Sample.tail)))
  /\ exists lines rest,
       OnHost.stream Sample.ascii_host Sample.ascii_decode (Sample.body ++ Sample.tail) []
         Sample.world
       = (with_console Sample.world lines, Ret rest)
       /\ length lines = count_newlines (Sample.body ++ Sample.tail)
       /\ bytes_contains newline rest = false.
Proof.
  assert (H : List.Forall (console_accepts Sample.ascii_host)
                (map (shown Sample.ascii_decode)
                   (complete_lines (Sample.body ++ Sample.tail)))).
  { repeat constructor. }
  split; [exact H|].
  destruct (one_printed_line_per_line_feed Sample.ascii_host Sample.ascii_decode
              (Sample.body ++ Sample.tail) Sample.world)
    as (lines & r & Hrun & _ & Hret & _ & Htotal).
  destruct (Htotal H) as [rest ->].
  exists lines, rest. split; [exact Hrun | exact (Hret rest eq_refl)].
Defined.

(** ** The result of run_encoding, when print can raise *)

(** [error] never returns. *)
Lemma host_error_raises (h : Host) (A : Type) (msg : string) (w : World) :
  exists w' e, @OnHost.error h A msg w = (w', Raise e).
Proof.
  unfold OnHost.error, OnHost.print, mbind, M_bind, bind.
  destruct (encode_error h _); eexists _, _; reflexivity.
Qed.

(** No handler of [run_encoding] returns. *)
Lemma host_handlers_raise (h : Host) (command : list string) (e : exn) (w w' : World)
    (flag : bool) :
  dispatch
    [ (is_FileNotFoundError,
        fun _ => match command with
                 | c0 :: _ =>
                     OnHost.error h
                       ("Could not execute command. Make sure '" +:+ c0 +:+ "' is correct.")
                 | [] => raise (OtherException "list index out of range")
                 end);
      (is_Exception,
        fun e => OnHost.error h
                   ("An unexpected error occurred while running the encoder: "
                    +:+ exn_str e)) ] e w
  <> (w', Ret flag).
Proof.
  cbn [dispatch].
  destruct (is_FileNotFoundError e).
  - destruct command as [|c0 command]; [discriminate|].
    destruct (host_error_raises h bool
                ("Could not execute command. Make sure '" +:+ c0 +:+ "' is correct.") w)
      as (w1 & e1 & ->). discriminate.
  - destruct (is_Exception e); [|discriminate].
    destruct (host_error_raises h bool
                ("An unexpected error occurred while running the encoder: "
                 +:+ exn_str e) w)
      as (w1 & e1 & ->). discriminate.
Qed.

(** Where the console takes every line, the run is the one of the calm
    host. *)
Lemma host_run_encoding (h : Host) (decode : list byte -> string)
    (command : list string) (p : process) (w : World) :
  console_accepts h (running_line command) ->
  List.Forall (console_accepts h) (map (shown decode) (complete_lines (stdout p))) ->
  console_accepts h (verdict_line (returncode p)) ->
  OnHost.run_encoding h decode command (Runs p) w
  = run_encoding decode command (Runs p) w.
Proof.
  unfold console_accepts, running_line, verdict_line. intros Hrun Hlines Hverdict.
  unfold OnHost.run_encoding, run_encoding, try_.
  unfold OnHost.log_info, OnHost.log_warning, OnHost.print, log_info, log_warning, print.
  unfold mbind, M_bind, bind, Popen, mret, M_ret, ret.
  rewrite Hrun.
  rewrite (host_stream_spec h decode (stdout p) [] _ eq_refl).
  rewrite (stream_spec decode (stdout p) [] _ eq_refl). cbn [app].
  rewrite (printed_all _ _ Hlines). cbn [fst snd wait files dirs console with_console].
  destruct (returncode p =? 0)%Z; cbn [negb]; now rewrite Hverdict.
Qed.

(** C7: a flag that [run_encoding] returns is true exactly when the
    exit code of the child is 0, whatever the child wrote and whatever
    the console is; and for a child that runs to its end the flag is
    returned whenever the console can encode the lines to print. *)
Theorem run_encoding_flag_iff_exit_code_zero
    (h : Host) (decode : list byte -> string) (command : list string) :
  (forall behaviour w w' flag,
     OnHost.run_encoding h decode command behaviour w = (w', Ret flag) ->
     exists p, behaviour = Runs p /\ (flag = true <-> returncode p = 0%Z))
  /\ (forall p w,
        console_accepts h (running_line command) ->
        List.Forall (console_accepts h)
          (map (shown decode) (complete_lines (stdout p))) ->
        console_accepts h (verdict_line (returncode p)) ->
        exists w' flag,
          OnHost.run_encoding h decode command (Runs p) w = (w', Ret flag)
          /\ (flag = true <-> returncode p = 0%Z)).
Proof.
  split.
  - intros behaviour w w' flag.
    unfold OnHost.run_encoding, try_, OnHost.log_info, OnHost.log_warning.
    unfold mbind, M_bind, bind. unfold OnHost.print at 1.
    destruct (encode_error h _); [discriminate|].
    destruct behaviour as [p|msg|msg|]; cbn [Popen mret M_ret ret raise].
    + destruct (OnHost.stream h decode (stdout p) [] _) as [w1 [rest|e]].
      * cbn [wait]. destruct (returncode p =? 0)%Z eqn:Ecode; cbn [negb];
          unfold OnHost.print; destruct (encode_error h _).
        -- intros H. now apply host_handlers_raise in H.
        -- intros [= <- <-]. exists p. split; [reflexivity|].
           split; [intros _; now apply Z.eqb_eq | reflexivity].
        -- intros H. now apply host_handlers_raise in H.
        -- intros [= <- <-]. exists p. split; [reflexivity|].
           split; [discriminate | intros H; apply Z.eqb_eq in H; congruence].
      * intros H. now apply host_handlers_raise in H.
    + intros H. now apply host_handlers_raise in H.
    + intros H. now apply host_handlers_raise in H.
    + discriminate.
  - intros p w Hrun Hlines Hverdict.
    rewrite (host_run_encoding h decode command p w Hrun Hlines Hverdict).
    rewrite run_encoding_runs. eexists _, _. split; [reflexivity|].
    apply Z.eqb_eq.
Qed.

Lemma run_encoding_flag_iff_exit_code_zero_witness :
  console_accepts Sample.ascii_host (running_line ["python"; "encode.py"])
  /\ List.Forall (console_accepts Sample.ascii_host)
       (map (shown Sample.ascii_decode) (complete_lines (stdout Sample.encoder_failed)))
  /\ console_accepts Sample.ascii_host (verdict_line (returncode Sample.encoder_failed))
  /\ exists w' flag,
       OnHost.run_encoding Sample.ascii_host Sample.ascii_decode ["python"; "encode.py"]
         (Runs Sample.encoder_failed) Sample.world
       = (w', Ret flag)
       /\ (flag = true <-> returncode Sample.encoder_failed = 0%Z).
Proof.
  assert (H : List.Forall (console_accepts Sample.ascii_host)
                (map (shown Sample.ascii_decode)
                   (complete_lines (stdout Sample.encoder_failed)))).
  { repeat constructor. }
  split; [reflexivity | split; [exact H | split; [reflexivity|]]].
  destruct (run_encoding_flag_iff_exit_code_zero Sample.ascii_host Sample.ascii_decode
              ["python"; "encode.py"]) as [_ Hflag].
  exact (Hflag Sample.encoder_failed Sample.world eq_refl H eq_refl).
Defined.

(** X14: when the console cannot encode a line of the child, the
    streaming stops at that line, the handler for every exception
    reports it, and [run_encoding] ends the process with status 1
    whatever the exit code of the child is. *)
Theorem unprintable_line_ends_the_process
    (h : Host) (decode : list byte -> string) (command : list string)
    (p : process) (w : World) (lines : list string) (msg : string) :
  console_accepts h (running_line command) ->
  printed_until_refusal h (map (shown decode) (complete_lines (stdout p)))
  = (lines, Some msg) ->
  console_accepts h
    (Colors.RED +:+ "ERROR: "
     +:+ ("An unexpected error occurred while running the encoder: " +:+ msg)
     +:+ Colors.RESET) ->
  (OnHost.run_encoding h decode command (Runs p) w).2 = Raise (SystemExit 1)
  /\ console (OnHost.run_encoding h decode command (Runs p) w).1
     = console w
       ++ [running_line command] ++ lines
       ++ [Colors.RED +:+ "ERROR: "
           +:+ ("An unexpected error occurred while running the encoder: " +:+ msg)
           +:+ Colors.RESET]
  /\ length lines < count_newlines (stdout p).
Proof.
  unfold console_accepts. intros Hrun Hprinted Herror.
  pose proof (printed_length h (map (shown decode) (complete_lines (stdout p)))) as Hlen.
  rewrite Hprinted in Hlen. cbn [fst snd] in Hlen.
  rewrite length_map, complete_lines_length in Hlen.
  assert (E : OnHost.run_encoding h decode command (Runs p) w
              = ({| files := files w; dirs := dirs w;
                    console :=
                      ((console w ++ [running_line command]) ++ lines)
                      ++ [Colors.RED +:+ "ERROR: "
                          +:+ ("An unexpected error occurred while running the encoder: "
                               +:+ msg)
                          +:+ Colors.RESET] |},
                 Raise (SystemExit 1))).
  { unfold running_line in *.
    unfold OnHost.run_encoding, try_, OnHost.log_info.
    unfold mbind, M_bind, bind. unfold OnHost.print at 1. rewrite Hrun.
    cbn [Popen mret M_ret ret].
    rewrite (host_stream_spec h decode (stdout p) [] _ eq_refl). cbn [app].
    rewrite Hprinted. cbn [fst snd dispatch is_FileNotFoundError is_Exception exn_str].
    unfold OnHost.error, OnHost.print, mbind, M_bind, bind.
    cbn [with_console files dirs console]. rewrite Herror.
    reflexivity. }
  rewrite E. cbn [fst snd console].
  split; [reflexivity | split; [|exact Hlen]].
  now rewrite <- !app_assoc.
Qed.

Lemma unprintable_line_ends_the_process_witness :
  returncode Sample.garbled = 0%Z
  /\ (OnHost.run_encoding Sample.ascii_host Sample.ascii_decode ["python"; "encode.py"]
        (Runs Sample.garbled) Sample.world).2 = Raise (SystemExit 1)
  /\ console (OnHost.run_encoding Sample.ascii_host Sample.ascii_decode
                ["python"; "encode.py"] (Runs Sample.garbled) Sample.world).1
     = console Sample.world
       ++ [running_line ["python"; "encode.py"]] ++ []
       ++ [Colors.RED +:+ "ERROR: "
           +:+ ("An unexpected error occurred while running the encoder: "
                +:+ "'ascii' codec can't encode character '\ufffd'")
           +:+ Colors.RESET]
  /\ length (@nil string) < count_newlines (stdout Sample.garbled).
Proof.
  split; [reflexivity|].
  apply (unprintable_line_ends_the_process Sample.ascii_host Sample.ascii_decode
           ["python"; "encode.py"] Sample.garbled Sample.world []
           "'ascii' codec can't encode character '\ufffd'");
    reflexivity.
Defined.

(** ** The outcomes of construct_command *)

(** X3: [construct_command] has four outcomes.  With the reserved key
    bound to a string it returns a command of 11 tokens plus two per
    other key whose value is not null, and prints nothing, when every
    existence test answers; the first existence test that raises ends
    the call with that error.  With the key bound to anything else it
    raises an exception that is not a [SystemExit].  Without the key it
    prints one line and exits with 1, unless the console cannot encode
    the line. *)
Theorem construct_command_outcomes
    (h : Host) (sys_executable : string) (config : dict) (watch output : string)
    (w : World) :
  match dict_get encoder_script_path config with
  | Some (VStr script) =>
      (existence_tests_return h (dict_remove encoder_script_path config) ->
       exists command,
         OnHost.construct_command h sys_executable config watch output w
         = (w, Ret (command, dict_remove encoder_script_path config))
         /\ length command
            = 11 + 2 * length (List.filter has_value
                                 (dict_remove encoder_script_path config)))
      /\ (forall before key s after msg,
            dict_remove encoder_script_path config = before ++ (key, VStr s) :: after ->
            existence_tests_return h before ->
            has_separator s = true ->
            stat_error h (PosixPath.str (PosixPath.Path s)) = Some msg ->
            OnHost.construct_command h sys_executable config watch output w
            = (w, Raise (OtherException msg)))
  | Some _ =>
      exists msg,
        OnHost.construct_command h sys_executable config watch output w
        = (w, Raise (OtherException msg))
  | None =>
      OnHost.construct_command h sys_executable config watch output w
      = match encode_error h missing_key_line with
        | None => (with_console w [missing_key_line], Raise (SystemExit 1))
        | Some msg => (w, Raise (OtherException msg))
        end
  end.
Proof.
  destruct (dict_get encoder_script_path config) as [v|] eqn:Hget.
  - destruct v as [| b | z | r | script];
      try (eexists; unfold OnHost.construct_command;
           rewrite (dict_get_contains _ _ _ Hget), Hget; reflexivity).
    split.
    + intros Htests.
      rewrite (host_construct_command h _ _ _ _ _ w Hget Htests).
      rewrite (construct_command_spec _ _ _ _ _ _ Hget).
      eexists. split; [reflexivity|].
      rewrite !length_app.
      rewrite (pairs_for_length w _ _ (flag_pairs_pairs_for w _)).
      cbn [length]. lia.
    + intros before key s after msg Hrest Htests Hsep Hstat.
      unfold OnHost.construct_command.
      rewrite (dict_get_contains _ _ _ Hget), Hget. cbn [negb].
      unfold mbind, M_bind, bind, mret, M_ret, ret.
      rewrite Hrest.
      now rewrite (host_add_arguments_raises h before after key s msg _ w Htests Hsep Hstat).
  - unfold OnHost.construct_command. rewrite (dict_get_none _ _ Hget). cbn [negb].
    unfold OnHost.error, OnHost.print, mbind, M_bind, bind, missing_key_line.
    now destruct (encode_error h _).
Qed.

Lemma construct_command_outcomes_witness :
  dict_remove encoder_script_path Sample.vault_config
  = [("preset", VStr "slow")] ++ ("temp-dir", VStr "/vault/temp/job") :: [("crf", VInt 18)]
  /\ existence_tests_return Sample.ascii_host [("preset", VStr "slow")]
  /\ has_separator "/vault/temp/job" = true
  /\ substring_of "temp" "/vault/temp/job"
  /\ OnHost.construct_command Sample.ascii_host Sample.python Sample.vault_config
       "/mnt/in/reel1" "/mnt/out" Sample.world
     = (Sample.world,
        Raise (OtherException "[Errno 13] Permission denied: '/vault/temp/job'")).
Proof.
  assert (H : existence_tests_return Sample.ascii_host [("preset", VStr "slow")]).
  { repeat constructor. }
  split; [reflexivity | split; [exact H | split; [reflexivity|]]].
  split; [now exists "/vault/", "/job"|].
  pose proof (construct_command_outcomes Sample.ascii_host Sample.python
                Sample.vault_config "/mnt/in/reel1" "/mnt/out" Sample.world) as Hout.
  cbn [dict_get Sample.vault_config encoder_script_path String.eqb Ascii.eqb Bool.eqb] in Hout.
  destruct Hout as [_ Hraise].
  exact (Hraise [("preset", VStr "slow")] "temp-dir" "/vault/temp/job" [("crf", VInt 18)]
           "[Errno 13] Permission denied: '/vault/temp/job'" eq_refl H eq_refl eq_refl).
Defined.

(** ** The calm host *)

Lemma calm_tests_return (items : dict) : existence_tests_return calm items.
Proof.
  induction items as [|[k v] items IH]; constructor; [|exact IH].
  unfold test_returns. cbn [snd]. now destruct v.
Qed.

(** On the calm host the functions of [OnHost] are the functions of the
    program as they come first. *)
Lemma calm_construct_command (sys_executable : string) (config : dict)
    (watch output : string) (w : World) :
  OnHost.construct_command calm sys_executable config watch output w
  = construct_command sys_executable config watch output w.
Proof.
  unfold OnHost.construct_command, construct_command.
  destruct (dict_contains encoder_script_path config); cbn [negb]; [|reflexivity].
  unfold mbind, M_bind, bind, mret, M_ret, ret.
  destruct (dict_get encoder_script_path config) as [[| b | z | r | s]|]; try reflexivity.
  all: now rewrite (host_add_arguments calm _ _ w (calm_tests_return _)).
Qed.

Lemma calm_stream (decode : list byte -> string) (out buf : list byte) (w : World) :
  OnHost.stream calm decode out buf w = stream decode out buf w.
Proof.
  revert buf w. induction out as [|c out IH]; intros buf w; [reflexivity|].
  cbn [OnHost.stream stream]. unfold mbind, M_bind, bind.
  change (OnHost.stream_chunk calm decode buf c w) with (stream_chunk decode buf c w).
  destruct (stream_chunk decode buf c w) as [w1 [buf1|e]]; [apply IH | reflexivity].
Qed.

Lemma calm_run_encoding (decode : list byte -> string) (command : list string)
    (behaviour : popen_behaviour) (w : World) :
  OnHost.run_encoding calm decode command behaviour w
  = run_encoding decode command behaviour w.
Proof.
  unfold OnHost.run_encoding, run_encoding, try_.
  unfold mbind, M_bind, bind.
  change (OnHost.log_info calm) with log_info.
  destruct (log_info _ w) as [w1 [[]|e]]; [|reflexivity].
  destruct behaviour as [p|msg|msg|]; reflexivity.
Qed.
